(** * Streaky Bay development-application scraper: a shallow embedding

    The definitions below are translated from [src/scraper.ts] (the
    single-field address normaliser, the geometry helpers, the page loop and
    the database write) and from the earlier multiplexed-address version of
    the same file kept in [src/unnamed/part_001] ([addressComparer] and its
    variant of [insertRow]).  The two page parsers, the element sort, the
    save loop and the gazetteer loops of [main] are modelled as well; dates
    ([moment]) enter the parsers as parameters.

    Conventions of the embedding.
    - A JavaScript string is a [string] whose characters stand for the code
      units 0..255.  White space ([\s], [trim]) is exact on that range;
      [toUpperCase] is the ASCII one.
    - A JavaScript [number] is kept abstract in the geometry code (a class
      of operations) and instantiated twice: IEEE binary64 ([float]), which
      is what the program runs on, and exact rationals ([Q]).
    - [undefined] is [None]; an uncaught [TypeError] is [Throw].
    - The gazetteer objects are association lists in [Object.keys] order
      (their keys are names, never array indices).
    - [console.log] output is left out, and so is the [reject] branch of a
      failed database statement. *)

From Stdlib Require Import ZArith List String Ascii Bool Lia Lqa QArith Qminmax Floats.
From stdpp Require Import gmap strings list.
Import ListNotations.

#[local] Open Scope bool_scope.
#[local] Open Scope nat_scope.

(** ** JavaScript string primitives used by the scraper *)

Module JS.

(** [\s] on the code units 0..255: TAB, LF, VT, FF, CR, SPACE, NBSP. *)
Definition isWhiteSpace (c : ascii) : bool :=
  match c with
  | "009" | "010" | "011" | "012" | "013" | " " | "160" => true
  | _ => false
  end%char.

(** [\d] *)
Definition isDigit (c : ascii) : bool :=
  match c with
  | "0" | "1" | "2" | "3" | "4" | "5" | "6" | "7" | "8" | "9" => true
  | _ => false
  end%char.

Definition isUpper (c : ascii) : bool :=
  (65 <=? nat_of_ascii c) && (nat_of_ascii c <=? 90).

Definition isLower (c : ascii) : bool :=
  (97 <=? nat_of_ascii c) && (nat_of_ascii c <=? 122).

(** [\w] *)
Definition isWordChar (c : ascii) : bool :=
  isUpper c || isLower c || isDigit c || Ascii.eqb c "_"%char.

Definition upperChar (c : ascii) : ascii :=
  if isLower c then ascii_of_nat (nat_of_ascii c - 32) else c.

Definition lowerChar (c : ascii) : ascii :=
  if isUpper c then ascii_of_nat (nat_of_ascii c + 32) else c.

Fixpoint mapChars (f : ascii -> ascii) (s : string) : string :=
  match s with
  | EmptyString => EmptyString
  | String c r => String (f c) (mapChars f r)
  end.

Definition toUpperCase : string -> string := mapChars upperChar.
Definition toLowerCase : string -> string := mapChars lowerChar.

Fixpoint dropWhile (p : ascii -> bool) (s : string) : string :=
  match s with
  | EmptyString => EmptyString
  | String c r => if p c then dropWhile p r else s
  end.

(** Removes the longest run of characters satisfying [p] at the end of
    the string: [s.replace(/[p]+$/, "")]. *)
Definition dropWhileEnd (p : ascii -> bool) (s : string) : string :=
  String.rev (dropWhile p (String.rev s)).

Definition trim (s : string) : string :=
  dropWhileEnd isWhiteSpace (dropWhile isWhiteSpace s).

Fixpoint drop (n : nat) (s : string) : string :=
  match n, s with
  | S n', String _ r => drop n' r
  | _, _ => s
  end.

(** [s.startsWith(p)] *)
Fixpoint startsWith (p s : string) : bool :=
  match p, s with
  | EmptyString, _ => true
  | String a p', String b s' => Ascii.eqb a b && startsWith p' s'
  | String _ _, EmptyString => false
  end.

(** [s.endsWith(p)] *)
Definition endsWith (p s : string) : bool :=
  startsWith (String.rev p) (String.rev s).

(** [s.replace(/^p/, "")] for a literal prefix [p]. *)
Definition removePrefix (p s : string) : string :=
  if startsWith p s then drop (String.length p) s else s.

(** [s.replace(/[p]/g, "")] for a character class [p]. *)
Fixpoint removeAll (p : ascii -> bool) (s : string) : string :=
  match s with
  | EmptyString => EmptyString
  | String c r => if p c then removeAll p r else String c (removeAll p r)
  end.

Definition headIs (p : ascii -> bool) (s : string) : bool :=
  match s with
  | String c _ => p c
  | EmptyString => false
  end.

(** [s.replace(/\s\s+/g, " ")]: every run of two or more white-space
    characters becomes one space; a lone white-space character stays as
    it is.  [inRun] says that the previous character was white space. *)
Fixpoint collapseRuns (inRun : bool) (s : string) : string :=
  match s with
  | EmptyString => EmptyString
  | String c r =>
      if isWhiteSpace c then
        if inRun then collapseRuns true r
        else String (if headIs isWhiteSpace r then " "%char else c)
                    (collapseRuns true r)
      else String c (collapseRuns false r)
  end.

Definition collapseWhiteSpace : string -> string := collapseRuns false.

(** [s.split(" ")]: never empty, the empty string gives one empty token. *)
Fixpoint split (s : string) : list string :=
  match s with
  | EmptyString => [EmptyString]
  | String c r =>
      if Ascii.eqb c " "%char then EmptyString :: split r
      else match split r with
           | t :: ts => String c t :: ts
           | [] => [String c EmptyString]
           end
  end.

(** [tokens.join(sep)] *)
Fixpoint join (sep : string) (tokens : list string) : string :=
  match tokens with
  | [] => EmptyString
  | [t] => t
  | t :: ts => t +:+ sep +:+ join sep ts
  end.

(** [tokens.pop()]: the last element and the array left behind. *)
Definition pop {A : Type} (tokens : list A) : option (A * list A) :=
  match rev tokens with
  | [] => None
  | t :: ts => Some (t, rev ts)
  end.

(** [tokens.push(t)] *)
Definition push {A : Type} (tokens : list A) (t : A) : list A := tokens ++ [t].

(** [tokens.slice(-n)] for a positive [n]. *)
Definition sliceLast {A : Type} (n : nat) (tokens : list A) : list A :=
  skipn (length tokens - n) tokens.

(** [tokens.splice(-n, n)] for a positive [n]: what stays in the array. *)
Definition spliceLast {A : Type} (n : nat) (tokens : list A) : list A :=
  firstn (length tokens - n) tokens.

(** [/^\d\d\d\d$/.test(s)] *)
Definition isFourDigits (s : string) : bool :=
  match s with
  | String a (String b (String c (String d EmptyString))) =>
      isDigit a && isDigit b && isDigit c && isDigit d
  | _ => false
  end.

(** [/\bSA\b/.test(s)].  [afterWord] says that the previous character is
    a word character. *)
Fixpoint testSA (afterWord : bool) (s : string) : bool :=
  match s with
  | EmptyString => false
  | String c r =>
      (negb afterWord && startsWith "SA" s && negb (headIs isWordChar (drop 2 s)))
      || testSA (isWordChar c) r
  end.

(** [s.replace(/\s+\d\d\d\d$/, " " + postCode)] *)
Definition replaceTrailingPostCode (postCode s : string) : string :=
  match String.rev s with
  | String d (String c (String b (String a r))) =>
      if isDigit a && isDigit b && isDigit c && isDigit d && headIs isWhiteSpace r
      then String.rev (dropWhile isWhiteSpace r) +:+ " " +:+ postCode
      else s
  | _ => s
  end.

End JS.

(** ** Completions and object look-up *)

Inductive Completion (A : Type) : Type :=
| Normal (a : A)
| Throw.
Arguments Normal {A} a.
Arguments Throw {A}.

#[global] Instance Completion_ret : MRet Completion := fun A a => Normal a.
#[global] Instance Completion_bind : MBind Completion := fun A B k c =>
  match c with
  | Normal a => k a
  | Throw => Throw
  end.

(** [object[key]] on an object kept as an association list. *)
Fixpoint lookupKey {V : Type} (key : string) (object : list (string * V)) : option V :=
  match object with
  | [] => None
  | (k, v) :: rest => if String.eqb k key then Some v else lookupKey key rest
  end.

(** [Object.keys(object)] and [Object.values(object)] *)
Definition keys {V : Type} (object : list (string * V)) : list string := map fst object.
Definition values {V : Type} (object : list (string * V)) : list V := map snd object.

(** ** The fuzzy matcher

    [didyoumean2] is an npm dependency of the scraper; its code is not part
    of the repository.  The address code below is therefore parameterised by
    the matcher.  [Fuzzy.didYouMean] is an executable matcher with the
    options every call site passes (case-insensitive, spaces trimmed,
    edit-distance threshold, first closest match); it is what the concrete
    runs in this file use. *)

Module Fuzzy.

Fixpoint nextRow (a : ascii) (t : list ascii) (prev : list nat) (left : nat) : list nat :=
  match t, prev with
  | b :: t', diag :: ((up :: _) as prev') =>
      let cost := if Ascii.eqb a b then 0 else 1 in
      let v := Nat.min (Nat.min (S up) (S left)) (diag + cost) in
      v :: nextRow a t' prev' v
  | _, _ => []
  end.

Fixpoint rows (s t : list ascii) (prev : list nat) (i : nat) : list nat :=
  match s with
  | [] => prev
  | a :: s' => rows s' t (S i :: nextRow a t prev (S i)) (S i)
  end.

(** Levenshtein distance. *)
Definition editDistance (s t : string) : nat :=
  let t' := list_ascii_of_string t in
  List.last (rows (list_ascii_of_string s) t' (seq 0 (S (length t'))) 0) 0.

(** [s.replace(/\s+/g, " ")] *)
Fixpoint squeeze (inRun : bool) (s : string) : string :=
  match s with
  | EmptyString => EmptyString
  | String c r =>
      if JS.isWhiteSpace c then
        if inRun then squeeze true r else String " "%char (squeeze true r)
      else String c (squeeze false r)
  end.

Definition normalise (s : string) : string :=
  JS.toLowerCase (squeeze false (JS.trim s)).

Definition scores (input : string) (matchList : list string) : list nat :=
  map (fun item => editDistance (normalise input) (normalise item)) matchList.

Fixpoint firstWithScore (best : nat) (matchList : list string) (ds : list nat)
  : option string :=
  match matchList, ds with
  | item :: items, d :: ds' =>
      if d =? best then Some item else firstWithScore best items ds'
  | _, _ => None
  end.

Definition didYouMean (input : string) (matchList : list string) (threshold : nat)
  : option string :=
  match scores input matchList with
  | [] => None
  | d :: ds =>
      let best := fold_left Nat.min ds d in
      if best <=? threshold then firstWithScore best matchList (d :: ds) else None
  end.

End Fuzzy.

(** ** Geometry: [Rectangle], [Element], [intersect], [getArea] and
    [getPercentageOfElementInRectangle] *)

(** The operations the geometry code applies to a JavaScript [number]. *)
Class JSNumber (num : Type) : Type := {
  num0 : num;
  num100 : num;
  plus : num -> num -> num;
  minus : num -> num -> num;
  times : num -> num -> num;
  divide : num -> num -> num;
  Math_max : num -> num -> num;
  Math_min : num -> num -> num;
  greaterEq : num -> num -> bool;
  strictEq : num -> num -> bool
}.

Module Geometry.

Section Generic.
Context {num : Type} `{JSNumber num}.

Record Rectangle : Type := {
  x : num;
  y : num;
  width : num;
  height : num
}.

(** [interface Element extends Rectangle { text }] *)
Record Element : Type := {
  text : string;
  bounds :> Rectangle
}.

Definition intersect (rectangle1 rectangle2 : Rectangle) : Rectangle :=
  let x1 := Math_max (x rectangle1) (x rectangle2) in
  let y1 := Math_max (y rectangle1) (y rectangle2) in
  let x2 := Math_min (plus (x rectangle1) (width rectangle1))
                     (plus (x rectangle2) (width rectangle2)) in
  let y2 := Math_min (plus (y rectangle1) (height rectangle1))
                     (plus (y rectangle2) (height rectangle2)) in
  if greaterEq x2 x1 && greaterEq y2 y1
  then {| x := x1; y := y1; width := minus x2 x1; height := minus y2 y1 |}
  else {| x := num0; y := num0; width := num0; height := num0 |}.

Definition getArea (rectangle : Rectangle) : num :=
  times (width rectangle) (height rectangle).

Definition getPercentageOfElementInRectangle (element : Element) (rectangle : Rectangle)
  : num :=
  let elementArea := getArea element in
  let intersectionArea := getArea (intersect rectangle element) in
  if strictEq elementArea num0 then num0
  else divide (times intersectionArea num100) elementArea.

End Generic.

Arguments Rectangle num : clear implicits.
Arguments Element num : clear implicits.

(** IEEE binary64, the numbers the program computes with.  [Math.max] and
    [Math.min] give NaN when an argument is NaN and order -0 below +0. *)
Definition float_max (a b : float) : float :=
  if PrimFloat.is_nan a || PrimFloat.is_nan b then PrimFloat.nan
  else if PrimFloat.ltb a b then b
  else if PrimFloat.ltb b a then a
  else if PrimFloat.get_sign a then b else a.

Definition float_min (a b : float) : float :=
  if PrimFloat.is_nan a || PrimFloat.is_nan b then PrimFloat.nan
  else if PrimFloat.ltb a b then a
  else if PrimFloat.ltb b a then b
  else if PrimFloat.get_sign a then a else b.

#[global] Instance Binary64 : JSNumber float := {|
  num0 := 0%float;
  num100 := 100%float;
  plus := PrimFloat.add;
  minus := PrimFloat.sub;
  times := PrimFloat.mul;
  divide := PrimFloat.div;
  Math_max := float_max;
  Math_min := float_min;
  greaterEq := fun a b => PrimFloat.leb b a;
  strictEq := PrimFloat.eqb
|}.

(** The same operations without rounding. *)
#[global] Instance Exact : JSNumber Q := {|
  num0 := 0%Q;
  num100 := 100%Q;
  plus := Qplus;
  minus := Qminus;
  times := Qmult;
  divide := Qdiv;
  Math_max := Qmax;
  Math_min := Qmin;
  greaterEq := fun a b => Qle_bool b a;
  strictEq := Qeq_bool
|}.

(** The element lies inside the rectangle, in exact arithmetic. *)
Definition insideExact (element : Element Q) (rectangle : Rectangle Q) : Prop :=
  (x rectangle <= x element /\ x element + width element <= x rectangle + width rectangle /\
   y rectangle <= y element /\ y element + height element <= y rectangle + height rectangle)%Q.

(** The same containment, tested with the program's own comparisons. *)
Definition insideBinary64 (element : Element float) (rectangle : Rectangle float) : bool :=
  PrimFloat.leb (x rectangle) (x element)
  && PrimFloat.leb (x element + width element) (x rectangle + width rectangle)%float
  && PrimFloat.leb (y rectangle) (y element)
  && PrimFloat.leb (y element + height element) (y rectangle + height rectangle)%float.

End Geometry.


(** The further operations the page parsers and the element sort apply to
    a number: the constants 2, 3, 10 and [Number.MAX_VALUE], [>] and [<]. *)
Class JSNumberOrder (num : Type) : Type := {
  num2 : num;
  num3 : num;
  num10 : num;
  MAX_VALUE : num;
  greaterThan : num -> num -> bool;
  lessThan : num -> num -> bool
}.

#[global] Instance Binary64Order : JSNumberOrder float := {|
  num2 := 2%float;
  num3 := 3%float;
  num10 := 10%float;
  MAX_VALUE := 0x1.fffffffffffffp+1023%float;
  greaterThan := fun a b => PrimFloat.ltb b a;
  lessThan := PrimFloat.ltb
|}.

Definition Qlt_bool (a b : Q) : bool := negb (Qle_bool b a).

#[global] Instance ExactOrder : JSNumberOrder Q := {|
  num2 := 2%Q;
  num3 := 3%Q;
  num10 := 10%Q;
  MAX_VALUE := inject_Z (2 ^ 1024 - 2 ^ 971);
  greaterThan := fun a b => Qlt_bool b a;
  lessThan := Qlt_bool
|}.

(** ** Records shared by every version of the scraper *)

Record DevelopmentApplication : Type := {
  applicationNumber : string;
  address : string;
  description : string;
  informationUrl : string;
  commentUrl : string;
  scrapeDate : string;
  receivedDate : string
}.

(** The table [data]: [council_reference] is its primary key, and a row
    holds the seven values [insertRow] binds, in the order of the record. *)
Abbreviation Table := (gmap string DevelopmentApplication).

(** ** [src/scraper.ts] *)

Module Scraper.

(** [insert or replace into [data] values (?, ?, ?, ?, ?, ?, ?)] *)
Definition insertRow (database : Table) (developmentApplication : DevelopmentApplication)
  : Table :=
  <[applicationNumber developmentApplication := developmentApplication]> database.

(** *** [formatAddress] *)

Section FormatAddress.

(** [didYouMean(input, matchList, { ..., threshold })] with the options of
    the call sites, and the four gazetteer objects [main] fills. *)
Variable didYouMean : string -> list string -> nat -> option string.
Variable StreetNames : list (string * list string).
Variable StreetSuffixes : list (string * string).
Variable SuburbNames : list (string * string).
Variable HundredNames : list (string * list string).

Definition isComma (c : ascii) : bool := Ascii.eqb c ","%char.

(** The class [[-â€“]] on the code units 0..255. *)
Definition isDash (c : ascii) : bool :=
  match c with
  | "-" | "226" => true
  | _ => false
  end%char.

(** The class [[\s,0-]] *)
Definition isFiller (c : ascii) : bool :=
  JS.isWhiteSpace c || isComma c || Ascii.eqb c "0"%char || Ascii.eqb c "-"%char.

(** [address.trim().replace(/[-â€“]+$/, "").replace(/\s\s+/g, " ").trim()] *)
Definition cleanAddress (address : string) : string :=
  JS.trim (JS.collapseWhiteSpace (JS.dropWhileEnd isDash (JS.trim address))).

Definition isIgnoredAddress (address : string) : bool :=
  String.eqb (JS.removeAll isFiller address) ""
  || JS.startsWith "No Residential Address" address.

(** A regular expression [/^c1 c2 ... cn/] of character classes. *)
Fixpoint testPrefix (classes : list (ascii -> bool)) (s : string) : bool :=
  match classes, s with
  | [], _ => true
  | p :: classes', String c r => p c && testPrefix classes' r
  | _ :: _, EmptyString => false
  end.

(** [address.substring(0, n) + address.substring(n + 1)] *)
Definition deleteAt (n : nat) (s : string) : string :=
  String.substring 0 n s +:+ JS.drop (S n) s.

Definition removeThousandsComma (address : string) : string :=
  if testPrefix [JS.isDigit; isComma; JS.isDigit; JS.isDigit; JS.isDigit] address
  then deleteAt 1 address
  else if testPrefix [JS.isDigit; JS.isDigit; isComma; JS.isDigit; JS.isDigit; JS.isDigit] address
  then deleteAt 2 address
  else address.

(** The post code step: [None] is the early [return address]. *)
Definition popPostCode (tokens : list string) : option (option string * list string) :=
  match JS.pop tokens with
  | None => None
  | Some (token, tokens) =>
      if JS.isFourDigits token then Some (Some token, tokens)
      else Some (None, JS.push tokens token)
  end.

Definition States : list string :=
  ["ACT"; "NSW"; "NT"; "QLD"; "SA"; "TAS"; "VIC"; "WA"].

(** [[ ... ].includes(s)] *)
Definition includes (l : list string) (s : string) : bool :=
  existsb (String.eqb s) l.

(** The state step: [None] is the early [return address]. *)
Definition popState (tokens : list string) : option (string * list string) :=
  match JS.pop tokens with
  | None => None
  | Some (token, tokens) =>
      if includes States (JS.toUpperCase token) then Some (JS.toUpperCase token, tokens)
      else Some ("SA", JS.push tokens token)
  end.

Definition fallbackAddressOf (address : string) (postCode : option string)
  (state : string) (tokens : list string) : string :=
  match postCode with
  | None => address
  | Some postCode => JS.trim (JS.join " " (tokens ++ [state; postCode]))
  end.

Definition startsLikeHundred (s : string) : bool :=
  JS.startsWith "HD OF " s || JS.startsWith "HUNDRED OF" s
  || JS.startsWith "HD " s || JS.startsWith "HUNDRED " s.

Definition stripHundredPrefix (s : string) : string :=
  JS.trim (JS.removePrefix "HUNDRED "
            (JS.removePrefix "HD "
              (JS.removePrefix "HUNDRED OF " (JS.removePrefix "HD OF " s)))).

(** A suburb when the array names exactly one:
    [suburbNames.length === 1] and then [SuburbNames[suburbNames[0]]]. *)
Definition onlySuburb (suburbNames : list string) : option (option string) :=
  match suburbNames with
  | [suburb] => Some (lookupKey suburb SuburbNames)
  | _ => None
  end.

(** The hundred-name loop, [index] counting down to 1.  The result is
    [hasHundredName], [suburbName] and the tokens left. *)
Fixpoint findHundredName (index : nat) (tokens : list string)
  : Completion (bool * option string * list string) :=
  match index with
  | 0 => Normal (false, None, tokens)
  | S index' =>
      let tryHundredName := JS.toUpperCase (JS.join " " (JS.sliceLast index tokens)) in
      if startsLikeHundred tryHundredName then
        match didYouMean (stripHundredPrefix tryHundredName) (keys HundredNames) 1 with
        | Some hundredNameMatch =>
            match lookupKey hundredNameMatch HundredNames with
            | None => Throw
            | Some suburbNames =>
                match onlySuburb suburbNames with
                | Some suburbName => Normal (true, suburbName, JS.spliceLast index tokens)
                | None => Normal (true, None, tokens)
                end
            end
        | None => findHundredName index' tokens
        end
      else findHundredName index' tokens
  end.

(** The suburb-name loop. *)
Fixpoint findSuburbName (index : nat) (tokens : list string)
  : option string * list string :=
  match index with
  | 0 => (None, tokens)
  | S index' =>
      let trySuburbName := JS.join " " (JS.sliceLast index tokens) in
      match didYouMean trySuburbName (keys SuburbNames) 1 with
      | Some suburbNameMatch =>
          (lookupKey suburbNameMatch SuburbNames, JS.spliceLast index tokens)
      | None => findSuburbName index' tokens
      end
  end.

(** [token.trim().replace(/,+$/, "").trim()] *)
Definition stripCommas (s : string) : string :=
  JS.trim (JS.dropWhileEnd isComma (JS.trim s)).

Definition expandStreetSuffix (tokens : list string) : list string :=
  match JS.pop tokens with
  | None => tokens
  | Some (token, tokens) =>
      let token := stripCommas token in
      match lookupKey (JS.toUpperCase token) StreetSuffixes with
      | Some streetSuffix => JS.push tokens streetSuffix
      | None =>
          match find (String.eqb (JS.toUpperCase token)) (values StreetSuffixes) with
          | Some streetSuffix => JS.push tokens streetSuffix
          | None => JS.push tokens token
          end
      end
  end.

Definition tryStreetName (index : nat) (tokens : list string) : string :=
  stripCommas (JS.join " " (JS.sliceLast index tokens)).

(** The street-name loop.  The result is [streetName], [suburbName] and
    the tokens left. *)
Fixpoint findStreetName (index : nat) (suburbName : option string) (tokens : list string)
  : Completion (option string * option string * list string) :=
  match index with
  | 0 => Normal (None, suburbName, tokens)
  | S index' =>
      match didYouMean (tryStreetName index tokens) (keys StreetNames) 1 with
      | Some streetNameMatch =>
          match lookupKey streetNameMatch StreetNames with
          | None => Throw
          | Some suburbNames =>
              let suburbName :=
                match suburbName, onlySuburb suburbNames with
                | None, Some suburb => suburb
                | _, _ => suburbName
                end in
              Normal (Some streetNameMatch, suburbName, JS.spliceLast index tokens)
          end
      | None => findStreetName index' suburbName tokens
      end
  end.

Definition overridePostCode (postCode suburbName : option string) : option string :=
  match postCode, suburbName with
  | Some postCode, Some suburbName => Some (JS.replaceTrailingPostCode postCode suburbName)
  | _, _ => suburbName
  end.

(** The variables of [formatAddress] when it reaches the suburb check. *)
Record Resolution : Type := {
  tokens : list string;
  streetName : option string;
  suburbName : option string;
  fallbackAddress : string
}.

Inductive Progress : Type :=
| Returned (address : string)
| Reached (resolution : Resolution).

(** [formatAddress] up to, and without, the suburb check. *)
Definition resolveAddress (address : string) : Completion Progress :=
  let address := cleanAddress address in
  if isIgnoredAddress address then Normal (Returned "") else
  let address := removeThousandsComma address in
  match popPostCode (JS.split address) with
  | None => Normal (Returned address)
  | Some (postCode, tokens) =>
      match popState tokens with
      | None => Normal (Returned address)
      | Some (state, tokens) =>
          let fallbackAddress := fallbackAddressOf address postCode state tokens in
          '(hasHundredName, suburbName, tokens) ← findHundredName 4 tokens;
          let '(suburbName, tokens) :=
            if hasHundredName : bool then (suburbName, tokens)
            else findSuburbName 4 tokens in
          let tokens := expandStreetSuffix tokens in
          '(streetName, suburbName, tokens) ← findStreetName 5 suburbName tokens;
          Normal (Reached {| tokens := tokens;
                             streetName := streetName;
                             suburbName := overridePostCode postCode suburbName;
                             fallbackAddress := fallbackAddress |})
      end
  end.

Definition isBlank (s : string) : bool := String.eqb (JS.trim s) "".

(** The street part of the result. *)
Definition streetAddressOf (tokens : list string) (streetName : option string) : string :=
  let tokens :=
    match streetName with
    | Some streetName => if isBlank streetName then tokens else JS.push tokens streetName
    | None => tokens
    end in
  stripCommas (JS.join " " tokens).

(** [if (address !== "" && !/\bSA\b/g.test(address)) address += " SA"] *)
Definition ensureState (address : string) : string :=
  if negb (String.eqb address "") && negb (JS.testSA false address)
  then address +:+ " SA" else address.

(** The suburb check and the reconstruction of the address. *)
Definition assembleAddress (resolution : Resolution) : string :=
  match suburbName resolution with
  | None => ""
  | Some suburbName =>
      let address :=
        if isBlank suburbName then fallbackAddress resolution
        else
          let streetAddress := streetAddressOf (tokens resolution) (streetName resolution) in
          streetAddress +:+ (if String.eqb streetAddress "" then "" else ", ") +:+ suburbName in
      ensureState address
  end.

Definition formatAddress (applicationNumber address : string) : Completion string :=
  progress ← resolveAddress address;
  match progress with
  | Returned address => Normal address
  | Reached resolution => Normal (assembleAddress resolution)
  end.

End FormatAddress.

(** *** [parsePdf] *)

Section ParsePdf.

(** One page's elements, already sorted, and the parser [parsePdf] applies
    to them (the new-format or the old-format one, chosen from the
    elements); [None] is [undefined]. *)
Variable Page : Type.
Variable parseApplicationElements : Page -> string -> option DevelopmentApplication.

(** [developmentApplications.some(other => other.applicationNumber === number)] *)
Definition someWithNumber (developmentApplications : list DevelopmentApplication)
  (number : string) : bool :=
  existsb (fun otherDevelopmentApplication =>
             String.eqb (applicationNumber otherDevelopmentApplication) number)
          developmentApplications.

(** The end of the loop body: push unless [undefined] or a duplicate. *)
Definition pushApplication (developmentApplications : list DevelopmentApplication)
  (developmentApplication : option DevelopmentApplication) : list DevelopmentApplication :=
  match developmentApplication with
  | None => developmentApplications
  | Some developmentApplication =>
      if someWithNumber developmentApplications (applicationNumber developmentApplication)
      then developmentApplications
      else JS.push developmentApplications developmentApplication
  end.

Fixpoint parsePages (url : string) (pages : list Page)
  (developmentApplications : list DevelopmentApplication) : list DevelopmentApplication :=
  match pages with
  | [] => developmentApplications
  | page :: pages' =>
      parsePages url pages'
        (pushApplication developmentApplications (parseApplicationElements page url))
  end.

(** The pages the loop reads: at most the first hundred. *)
Definition pagesRead (pages : list Page) : list Page := firstn 100 pages.

Definition parsePdf (url : string) (pages : list Page) : list DevelopmentApplication :=
  parsePages url (pagesRead pages) [].

End ParsePdf.

Arguments pagesRead {Page} pages.
Arguments parsePages {Page} parseApplicationElements url pages developmentApplications.
Arguments parsePdf {Page} parseApplicationElements url pages.

(** *** The loop of [main] that saves the applications of one document *)

Definition saveApplications (database : Table)
  (developmentApplications : list DevelopmentApplication) : Table :=
  fold_left insertRow developmentApplications database.

(** *** The page parsers and the element sort *)

Definition CommentUrl : string := "mailto:dcstreaky@streakybay.sa.gov.au".

Section ParseElements.

Import (coercions) Geometry.

Context {num : Type} `{JSNumber num} `{JSNumberOrder num}.

(** The matcher and the gazetteer of [formatAddress]; [momentDate text] is
    [moment(text, "D/M/YYYY", true)] formatted as "YYYY-MM-DD", or the
    empty string when that date is not valid; [today] is
    [moment().format("YYYY-MM-DD")]. *)
Variable didYouMean : string -> list string -> nat -> option string.
Variable StreetNames : list (string * list string).
Variable StreetSuffixes : list (string * string).
Variable SuburbNames : list (string * string).
Variable HundredNames : list (string * list string).
Variable momentDate : string -> string.
Variable today : string.

(** [(a, b) => (a.y > b.y) ? 1 : ((a.y < b.y) ? -1 : ((a.x > b.x) ? 1 :
    ((a.x < b.x) ? -1 : 0)))] *)
Definition elementComparer (a b : Geometry.Element num) : Z :=
  if greaterThan (Geometry.y a) (Geometry.y b) then 1%Z
  else if lessThan (Geometry.y a) (Geometry.y b) then (-1)%Z
  else if greaterThan (Geometry.x a) (Geometry.x b) then 1%Z
  else if lessThan (Geometry.x a) (Geometry.x b) then (-1)%Z
  else 0%Z.

(** [element.text.toLowerCase().replace(/\s/g, "")] *)
Definition headingText (element : Geometry.Element num) : string :=
  JS.removeAll JS.isWhiteSpace (JS.toLowerCase (Geometry.text element)).

(** [elements.find(element => headingText(element) === heading)] *)
Definition findHeading (heading : string) (elements : list (Geometry.Element num))
  : option (Geometry.Element num) :=
  find (fun element => String.eqb (headingText element) heading) elements.

(** [getPercentageOfElementInRectangle(element, bounds) > 10] *)
Definition inBounds (bounds : Geometry.Rectangle num) (element : Geometry.Element num)
  : bool :=
  greaterThan (Geometry.getPercentageOfElementInRectangle element bounds) num10.

(** [elements.filter(inBounds).map(element => element.text).join(" ")
    .trim().replace(/\s\s+/g, " ")] *)
Definition textWithin (bounds : Geometry.Rectangle num)
  (elements : list (Geometry.Element num)) : string :=
  JS.collapseWhiteSpace
    (JS.trim (JS.join " " (map Geometry.text (List.filter (inBounds bounds) elements)))).

(** The text of the first element in the bounds without its white space,
    or the empty string. *)
Definition numberWithin (bounds : Geometry.Rectangle num)
  (elements : list (Geometry.Element num)) : string :=
  match find (inBounds bounds) elements with
  | None => ""
  | Some element => JS.removeAll JS.isWhiteSpace (Geometry.text element)
  end.

(** The received date read in the bounds; the empty string stands for an
    invalid date. *)
Definition dateWithin (bounds : Geometry.Rectangle num)
  (elements : list (Geometry.Element num)) : string :=
  match find (inBounds bounds) elements with
  | None => ""
  | Some element => momentDate (JS.trim (Geometry.text element))
  end.

(** The rectangle to the right of a heading: as wide as the gap up to the
    next heading, or three times the heading when there is none. *)
Definition rightOf (heading : Geometry.Element num)
  (next : option (Geometry.Element num)) (height : num) : Geometry.Rectangle num :=
  {| Geometry.x := plus (Geometry.x heading) (Geometry.width heading);
     Geometry.y := Geometry.y heading;
     Geometry.width :=
       match next with
       | None => times (Geometry.width heading) num3
       | Some next =>
           minus (minus (Geometry.x next) (Geometry.x heading)) (Geometry.width heading)
       end;
     Geometry.height := height |}.

(** The rectangle to the right of a heading, without a right edge. *)
Definition unboundedRightOf (heading : Geometry.Element num) : Geometry.Rectangle num :=
  {| Geometry.x := plus (Geometry.x heading) (Geometry.width heading);
     Geometry.y := Geometry.y heading;
     Geometry.width := MAX_VALUE;
     Geometry.height := Geometry.height heading |}.

Definition describe (description : string) : string :=
  if String.eqb description "" then "No description provided" else description.

Definition parseOldFormatApplicationElements (elements : list (Geometry.Element num))
  (informationUrl : string) : Completion (option DevelopmentApplication) :=
  let applicationFeesHeadingElement := findHeading "applicationfees:" elements in
  let applicationDateHeadingElement := findHeading "applicationdate:" elements in
  let developmentCompletedHeadingElement := findHeading "developmentcompleted:" elements in
  let propertyAddressHeadingElement := findHeading "propertyaddress:" elements in
  let developmentDescriptionHeadingElement :=
    findHeading "developmentdescription:" elements in
  let relevantAuthorityHeadingElement := findHeading "relevantauthority:" elements in
  match findHeading "applicationnumber:" elements with
  | None => Normal None
  | Some applicationHeadingElement =>
      let applicationNumber :=
        numberWithin
          (rightOf applicationHeadingElement applicationFeesHeadingElement
             (Geometry.height applicationHeadingElement)) elements in
      if String.eqb applicationNumber "" then Normal None else
      let receivedDate :=
        match applicationDateHeadingElement with
        | None => ""
        | Some heading =>
            dateWithin (rightOf heading developmentCompletedHeadingElement
                          (Geometry.height heading)) elements
        end in
      match propertyAddressHeadingElement with
      | None => Normal None
      | Some heading =>
          address ←
            formatAddress didYouMean StreetNames StreetSuffixes SuburbNames HundredNames
              applicationNumber
              (textWithin (rightOf heading applicationFeesHeadingElement
                             (Geometry.height heading)) elements);
          if String.eqb address "" then Normal None else
          let description :=
            match developmentDescriptionHeadingElement with
            | None => ""
            | Some heading =>
                textWithin
                  (rightOf heading applicationFeesHeadingElement
                     match relevantAuthorityHeadingElement with
                     | None => MAX_VALUE
                     | Some authority => minus (Geometry.y authority) (Geometry.y heading)
                     end) elements
            end in
          Normal (Some {| applicationNumber := applicationNumber;
                          address := address;
                          description := describe description;
                          informationUrl := informationUrl;
                          commentUrl := CommentUrl;
                          scrapeDate := today;
                          receivedDate := receivedDate |})
      end
  end.

(** [element.text.toLowerCase().replace(/\s/g, "").startsWith("development")] *)
Definition isDevelopmentHeading (element : Geometry.Element num) : bool :=
  JS.startsWith "development" (headingText element).

Definition parseNewFormatApplicationElements (elements : list (Geometry.Element num))
  (informationUrl : string) : Completion (option DevelopmentApplication) :=
  let applicationDateHeadingElement := findHeading "applicationdate" elements in
  let assessmentNumberHeadingElement := findHeading "assessmentnumber" elements in
  let developmentDescriptionHeadingElement :=
    findHeading "developmentdescription" elements in
  match find isDevelopmentHeading elements with
  | None => Normal None
  | Some applicationHeadingElement =>
      let applicationNumber :=
        match JS.split (JS.collapseWhiteSpace
                          (JS.trim (Geometry.text applicationHeadingElement))) with
        | _ :: second :: _ => second
        | _ =>
            numberWithin
              (rightOf applicationHeadingElement applicationDateHeadingElement
                 (Geometry.height applicationHeadingElement)) elements
        end in
      if String.eqb applicationNumber "" then Normal None else
      let receivedDate :=
        match applicationDateHeadingElement with
        | None => ""
        | Some heading => dateWithin (unboundedRightOf heading) elements
        end in
      match assessmentNumberHeadingElement with
      | None => Normal None
      | Some heading =>
          let below := plus (Geometry.y heading) (Geometry.height heading) in
          let addressBounds :=
            {| Geometry.x := plus (Geometry.x heading) (Geometry.width heading);
               Geometry.y := below;
               Geometry.width := MAX_VALUE;
               Geometry.height :=
                 match developmentDescriptionHeadingElement with
                 | None => times num2 (Geometry.height heading)
                 | Some next => minus (Geometry.y next) below
                 end |} in
          address ←
            formatAddress didYouMean StreetNames StreetSuffixes SuburbNames HundredNames
              applicationNumber (textWithin addressBounds elements);
          if String.eqb address "" then Normal None else
          let description :=
            match developmentDescriptionHeadingElement with
            | None => ""
            | Some heading => textWithin (unboundedRightOf heading) elements
            end in
          Normal (Some {| applicationNumber := applicationNumber;
                          address := address;
                          description := describe description;
                          informationUrl := informationUrl;
                          commentUrl := CommentUrl;
                          scrapeDate := today;
                          receivedDate := receivedDate |})
      end
  end.

(** The choice [parsePdf] makes for the sorted elements of a page. *)
Definition parseApplicationElements (elements : list (Geometry.Element num))
  (url : string) : Completion (option DevelopmentApplication) :=
  match findHeading "applicationfees:" elements with
  | None => parseNewFormatApplicationElements elements url
  | Some _ => parseOldFormatApplicationElements elements url
  end.

End ParseElements.

(** *** The gazetteer files read by [main] *)

(** [s.split(sep)] for a one-character separator. *)
Fixpoint splitOn (sep : ascii) (s : string) : list string :=
  match s with
  | EmptyString => [EmptyString]
  | String c r =>
      if Ascii.eqb c sep then EmptyString :: splitOn sep r
      else match splitOn sep r with
           | t :: ts => String c t :: ts
           | [] => [String c EmptyString]
           end
  end.

(** [object[key] = value]: a new key goes last, an old one keeps its place. *)
Fixpoint setKey {V : Type} (key : string) (value : V) (object : list (string * V))
  : list (string * V) :=
  match object with
  | [] => [(key, value)]
  | (k, v) :: rest =>
      if String.eqb k key then (k, value) :: rest else (k, v) :: setKey key value rest
  end.

(** [fs.readFileSync(file).toString().replace(/\r/g, "").trim().split("\n")] *)
Definition linesOf (content : string) : list string :=
  splitOn "010"%char (JS.trim (JS.removeAll (Ascii.eqb "013"%char) content)).

(** The first two comma-separated fields of a line in upper case, trimmed;
    a line without a comma throws ([undefined.trim()]). *)
Definition fieldsOf (line : string) : Completion (string * string) :=
  match splitOn ","%char (JS.toUpperCase line) with
  | first :: second :: _ => Normal (JS.trim first, JS.trim second)
  | _ => Throw
  end.

(** [(StreetNames[streetName] || (StreetNames[streetName] = [])).push(suburbName)] *)
Definition addStreetName (StreetNames : list (string * list string))
  (streetName suburbName : string) : list (string * list string) :=
  match lookupKey streetName StreetNames with
  | Some suburbNames => setKey streetName (JS.push suburbNames suburbName) StreetNames
  | None => setKey streetName [suburbName] StreetNames
  end.

Fixpoint readStreetNames (lines : list string) (StreetNames : list (string * list string))
  : Completion (list (string * list string)) :=
  match lines with
  | [] => Normal StreetNames
  | line :: lines' =>
      '(streetName, suburbName) ← fieldsOf line;
      readStreetNames lines' (addStreetName StreetNames streetName suburbName)
  end.

(** The loop for [StreetSuffixes] and for [SuburbNames]:
    [object[fields[0].trim()] = fields[1].trim()]. *)
Fixpoint readPairs (lines : list string) (object : list (string * string))
  : Completion (list (string * string)) :=
  match lines with
  | [] => Normal object
  | line :: lines' =>
      '(key, value) ← fieldsOf line;
      readPairs lines' (setKey key value object)
  end.

(** [HundredNames[fields[0].trim()] = fields[1].trim().split(";")] *)
Fixpoint readHundredNames (lines : list string) (HundredNames : list (string * list string))
  : Completion (list (string * list string)) :=
  match lines with
  | [] => Normal HundredNames
  | line :: lines' =>
      '(hundredName, suburbNames) ← fieldsOf line;
      readHundredNames lines' (setKey hundredName (splitOn ";"%char suburbNames) HundredNames)
  end.

End Scraper.

(** ** [src/unnamed/part_001]: the version with multiplexed addresses *)

Module Multiplexed.

(** [insert or ignore into [data] values (?, ?, ?, ?, ?, ?, ?)] *)
Definition insertRow (database : Table) (developmentApplication : DevelopmentApplication)
  : Table :=
  match database !! applicationNumber developmentApplication with
  | Some _ => database
  | None => <[applicationNumber developmentApplication := developmentApplication]> database
  end.

(** [Number.MAX_VALUE], the threshold of an unrecognised street name. *)
Definition Number_MAX_VALUE : Z := (2 ^ 1024 - 2 ^ 971)%Z.

(** An element of [candidates] in [parseAddress]. *)
Record Candidate : Type := {
  group1 : list string;
  group2 : list string;
  hasInvalidHundredName : bool
}.

(** An element of [addresses] in [parseAddress]. *)
Record AddressCandidate : Type := {
  houseNumber : string;
  streetName : string;
  suburbName : string;
  threshold : Z;
  candidate : Candidate
}.

Definition isEmpty (s : string) : bool := String.eqb s "".

(** [None] is the [undefined] a call returns when no [return] is reached. *)
Definition addressComparer (a b : AddressCandidate) : option Z :=
  let byHouseNumber : option Z :=
    if isEmpty (houseNumber a) && negb (isEmpty (houseNumber b)) then Some 1%Z
    else if negb (isEmpty (houseNumber a)) && isEmpty (houseNumber b) then Some (-1)%Z
    else None in
  match (if (threshold a <=? 2)%Z && (threshold b <=? 2)%Z then byHouseNumber else None) with
  | Some result => Some result
  | None =>
      if (threshold a >? threshold b)%Z then Some 1%Z
      else if (threshold a <? threshold b)%Z then Some (-1)%Z
      else
        match byHouseNumber with
        | Some result => Some result
        | None =>
            if hasInvalidHundredName (candidate a) && negb (hasInvalidHundredName (candidate b))
            then Some 1%Z
            else if negb (hasInvalidHundredName (candidate a)) && hasInvalidHundredName (candidate b)
            then Some (-1)%Z
            else None
        end
  end.

(** The loop of [main] that saves the applications of one document. *)
Definition saveApplications (database : Table)
  (developmentApplications : list DevelopmentApplication) : Table :=
  fold_left insertRow developmentApplications database.

End Multiplexed.

(** * Vocabulary of the properties and concrete data *)

(** A stored row and a later scrape of the same application. *)
Definition existingRow : DevelopmentApplication := {|
  applicationNumber := "931/001/19";
  address := "12 BAY ROAD, STREAKY BAY SA 5680";
  description := "Shed";
  informationUrl := "https://www.streakybay.sa.gov.au/register.pdf";
  commentUrl := "mailto:dcstreaky@streakybay.sa.gov.au";
  scrapeDate := "2019-03-15";
  receivedDate := "2019-03-01"
|}.

Definition rescrapedRow : DevelopmentApplication := {|
  applicationNumber := "931/001/19";
  address := "14 BAY ROAD, STREAKY BAY SA 5680";
  description := "Carport";
  informationUrl := "https://www.streakybay.sa.gov.au/register.pdf";
  commentUrl := "mailto:dcstreaky@streakybay.sa.gov.au";
  scrapeDate := "2019-04-02";
  receivedDate := "2019-03-01"
|}.

(** What the pages read yield, in page order. *)
Definition pageResults {Page : Type}
  (parseApplicationElements : Page -> string -> option DevelopmentApplication)
  (url : string) (pages : list Page) : list (option DevelopmentApplication) :=
  map (fun page => parseApplicationElements page url) (Scraper.pagesRead pages).

(** Page [i] yields [d], and no earlier page yields its application number. *)
Definition firstOccurrence (results : list (option DevelopmentApplication))
  (i : nat) (d : DevelopmentApplication) : Prop :=
  results !! i = Some (Some d)
  /\ forall j d', j < i -> results !! j = Some (Some d') ->
       applicationNumber d' <> applicationNumber d.

(** The two splits of "BARUNGAüLake View HDüRoad" in the comment of
    [addressComparer], and candidates built on them. *)
Definition validSplit : Multiplexed.Candidate := {|
  Multiplexed.group1 := ["BARUNGA"; "Lake View"];
  Multiplexed.group2 := ["HD"; "Road"];
  Multiplexed.hasInvalidHundredName := false
|}.

Definition invalidSplit : Multiplexed.Candidate := {|
  Multiplexed.group1 := ["BARUNGA"; "Lake"];
  Multiplexed.group2 := ["View HD"; "Road"];
  Multiplexed.hasInvalidHundredName := true
|}.

Definition numberedTwoErrors : Multiplexed.AddressCandidate := {|
  Multiplexed.houseNumber := "35";
  Multiplexed.streetName := "SCHOOL TERRACE";
  Multiplexed.suburbName := "PASKEVILLE";
  Multiplexed.threshold := 2;
  Multiplexed.candidate := validSplit
|}.

Definition unnumberedExact : Multiplexed.AddressCandidate := {|
  Multiplexed.houseNumber := "";
  Multiplexed.streetName := "RAILWAY TERRACE SOUTH";
  Multiplexed.suburbName := "PASKEVILLE";
  Multiplexed.threshold := 0;
  Multiplexed.candidate := validSplit
|}.

Definition lakeViewRoad : Multiplexed.AddressCandidate := {|
  Multiplexed.houseNumber := "7";
  Multiplexed.streetName := "Lake View Road";
  Multiplexed.suburbName := "KADINA";
  Multiplexed.threshold := 0;
  Multiplexed.candidate := validSplit
|}.

Definition lakeRoad : Multiplexed.AddressCandidate := {|
  Multiplexed.houseNumber := "7";
  Multiplexed.streetName := "Lake Road";
  Multiplexed.suburbName := "KADINA";
  Multiplexed.threshold := 0;
  Multiplexed.candidate := invalidSplit
|}.

(** The three criteria [addressComparer] looks at are all equal. *)
Definition tied (a b : Multiplexed.AddressCandidate) : Prop :=
  Multiplexed.threshold a = Multiplexed.threshold b
  /\ Multiplexed.isEmpty (Multiplexed.houseNumber a)
     = Multiplexed.isEmpty (Multiplexed.houseNumber b)
  /\ Multiplexed.hasInvalidHundredName (Multiplexed.candidate a)
     = Multiplexed.hasInvalidHundredName (Multiplexed.candidate b).

#[local] Set Warnings "-inexact-float".

(** A fragment at x = 0.1 of width 0.2 (the nearest binary64 values). *)
Definition roundedElement : Geometry.Element float := {|
  Geometry.text := "Shed";
  Geometry.bounds := {| Geometry.x := 0.1%float; Geometry.y := 1%float;
                        Geometry.width := 0.2%float; Geometry.height := 1%float |}
|}.

Definition pageRectangle : Geometry.Rectangle float := {|
  Geometry.x := 0%float; Geometry.y := 0%float;
  Geometry.width := 10%float; Geometry.height := 10%float
|}.

#[local] Set Warnings "+inexact-float".

(** A small gazetteer for the concrete runs, with the streets and suburbs
    the comments of [formatAddress] mention. *)
Definition exampleStreetNames : list (string * list string) :=
  [("BELL ROAD", ["COLEBATCH"]);
   ("WOODS WELL ROAD", ["COLEBATCH"]);
   ("JEFFERSON COURT", ["WELLINGTON EAST"]);
   ("PRINCES HIGHWAY", ["MENINGIE"; "SALT CREEK"]);
   ("SMITH STREET", ["STREAKY BAY"])].

Definition exampleStreetSuffixes : list (string * string) :=
  [("RD", "ROAD"); ("CT", "COURT"); ("HWY", "HIGHWAY"); ("ST", "STREET")].

Definition exampleSuburbNames : list (string * string) :=
  [("COLEBATCH", "COLEBATCH SA 5266");
   ("WELLINGTON EAST", "WELLINGTON EAST SA 5259");
   ("MENINGIE", "MENINGIE SA 5264");
   ("SALT CREEK", "SALT CREEK SA 5264");
   ("STREAKY BAY", "STREAKY BAY SA 5680");
   ("POOCHERA", "POOCHERA SA 5655")].

Definition exampleHundredNames : list (string * list string) :=
  [("PALABIE", ["POOCHERA"]); ("PYGERY", ["PYGERY"; "WUDINNA"])].

Definition exampleFormatAddress : string -> Completion string :=
  Scraper.formatAddress Fuzzy.didYouMean exampleStreetNames exampleStreetSuffixes
    exampleSuburbNames exampleHundredNames "931/001/19".

Definition exampleResolveAddress : string -> Completion Scraper.Progress :=
  Scraper.resolveAddress Fuzzy.didYouMean exampleStreetNames exampleStreetSuffixes
    exampleSuburbNames exampleHundredNames.

(** The addresses [removeThousandsComma] rewrites, with what it makes of
    them: one digit or two digits, a comma and three digits, then anything. *)
Inductive LeadingThousands : string -> string -> Prop :=
| OneLeadingDigit (a b c d : ascii) (rest : string) :
    JS.isDigit a = true -> JS.isDigit b = true ->
    JS.isDigit c = true -> JS.isDigit d = true ->
    LeadingThousands
      (String a (String "," (String b (String c (String d rest)))))
      (String a (String b (String c (String d rest))))
| TwoLeadingDigits (a a' b c d : ascii) (rest : string) :
    JS.isDigit a = true -> JS.isDigit a' = true -> JS.isDigit b = true ->
    JS.isDigit c = true -> JS.isDigit d = true ->
    LeadingThousands
      (String a (String a' (String "," (String b (String c (String d rest))))))
      (String a (String a' (String b (String c (String d rest))))).

(** The pattern as the specification words it: the three digits after the
    comma are followed by no further digit. *)
Definition exactlyThreeDigitsPattern (address : string) : bool :=
  (Scraper.testPrefix [JS.isDigit; Scraper.isComma; JS.isDigit; JS.isDigit; JS.isDigit] address
   && negb (JS.headIs JS.isDigit (JS.drop 5 address)))
  || (Scraper.testPrefix
        [JS.isDigit; JS.isDigit; Scraper.isComma; JS.isDigit; JS.isDigit; JS.isDigit] address
      && negb (JS.headIs JS.isDigit (JS.drop 6 address))).

(** The first token [formatAddress] works with. *)
Definition firstToken (address : string) : string :=
  hd "" (JS.split (Scraper.removeThousandsComma (Scraper.cleanAddress address))).

(** A token of exactly four decimal digits. *)
Definition isPostCodeToken (token : string) : Prop :=
  exists a b c d, token = String a (String b (String c (String d "")))
                  /\ Forall (fun k => 48 <= nat_of_ascii k <= 57) [a; b; c; d].

(** Two characters that are equal, or the two cases of one letter A..Z. *)
Definition sameLetter (a b : ascii) : Prop :=
  a = b
  \/ (65 <= nat_of_ascii b <= 90 /\ nat_of_ascii a = nat_of_ascii b + 32)
  \/ (65 <= nat_of_ascii a <= 90 /\ nat_of_ascii b = nat_of_ascii a + 32).

(** Two strings that differ at most in the case of their letters. *)
Fixpoint equalIgnoringCase (s t : string) : Prop :=
  match s, t with
  | EmptyString, EmptyString => True
  | String a s', String b t' => sameLetter a b /\ equalIgnoringCase s' t'
  | _, _ => False
  end.

(** The token is the abbreviation [state] of a state or territory, in any
    letter case. *)
Definition namesState (token state : string) : Prop :=
  In state ["ACT"; "NSW"; "NT"; "QLD"; "SA"; "TAS"; "VIC"; "WA"]
  /\ equalIgnoringCase token state.

Definition namesNoState (token : string) : Prop :=
  forall state, ~ namesState token state.

(** [Trailer all postCode state tokens]: what the claim says the post code
    and state steps make of the tokens [all] of an address. *)
Inductive Trailer : list string -> option string -> string -> list string -> Prop :=
| PostCodeAfterState (rest : list string) (token postCode state : string) :
    isPostCodeToken postCode -> namesState token state ->
    Trailer (rest ++ [token; postCode]) (Some postCode) state rest
| PostCodeAlone (rest : list string) (token postCode : string) :
    isPostCodeToken postCode -> namesNoState token ->
    Trailer (rest ++ [token; postCode]) (Some postCode) "SA" (rest ++ [token])
| StateAlone (rest : list string) (token state : string) :
    ~ isPostCodeToken token -> namesState token state ->
    Trailer (rest ++ [token]) None state rest
| NoTrailer (rest : list string) (token : string) :
    ~ isPostCodeToken token -> namesNoState token ->
    Trailer (rest ++ [token]) None "SA" (rest ++ [token]).

(** [formatAddress] from the fallback address up to, and without, the
    suburb check, for the post code, state and tokens it has popped
    (lines 366 to 470 of [src/scraper.ts]). *)
Definition resolveTokens (didYouMean : string -> list string -> nat -> option string)
  (StreetNames : list (string * list string)) (StreetSuffixes SuburbNames : list (string * string))
  (HundredNames : list (string * list string))
  (address : string) (postCode : option string) (state : string) (tokens : list string)
  : Completion Scraper.Progress :=
  let fallbackAddress := Scraper.fallbackAddressOf address postCode state tokens in
  '(hasHundredName, suburbName, tokens) ←
    Scraper.findHundredName didYouMean SuburbNames HundredNames 4 tokens;
  let '(suburbName, tokens) :=
    if hasHundredName : bool then (suburbName, tokens)
    else Scraper.findSuburbName didYouMean SuburbNames 4 tokens in
  let tokens := Scraper.expandStreetSuffix StreetSuffixes tokens in
  '(streetName, suburbName, tokens) ←
    Scraper.findStreetName didYouMean StreetNames SuburbNames 5 suburbName tokens;
  Normal (Scraper.Reached
            {| Scraper.tokens := tokens;
               Scraper.streetName := streetName;
               Scraper.suburbName := Scraper.overridePostCode postCode suburbName;
               Scraper.fallbackAddress := fallbackAddress |}).

(** The result [formatAddress] makes of what [resolveAddress] reached. *)
Definition resultOf (progress : Scraper.Progress) : string :=
  match progress with
  | Scraper.Returned address => address
  | Scraper.Reached resolution => Scraper.assembleAddress resolution
  end.

(** The street a window matches does not supply a suburb: its array of
    suburbs is not a single suburb with an entry in [SuburbNames]. *)
Definition noSuburbFromStreet (StreetNames : list (string * list string))
  (SuburbNames : list (string * string)) (streetNameMatch : string) : Prop :=
  exists suburbNames,
    lookupKey streetNameMatch StreetNames = Some suburbNames
    /\ forall suburb, suburbNames = [suburb] -> lookupKey suburb SuburbNames = None.

(** No window of one to five trailing tokens matches a street. *)
Definition noStreetMatch (didYouMean : string -> list string -> nat -> option string)
  (StreetNames : list (string * list string)) (tokens : list string) : Prop :=
  forall index, 1 <= index <= 5 ->
    didYouMean (Scraper.tryStreetName index tokens) (keys StreetNames) 1 = None.

(** The window of [index] trailing tokens matches the street
    [streetNameMatch], and no longer window of at most five tokens matches
    a street. *)
Definition longestStreetMatch (didYouMean : string -> list string -> nat -> option string)
  (StreetNames : list (string * list string)) (tokens : list string)
  (index : nat) (streetNameMatch : string) : Prop :=
  1 <= index <= 5
  /\ didYouMean (Scraper.tryStreetName index tokens) (keys StreetNames) 1
     = Some streetNameMatch
  /\ forall longer, index < longer <= 5 ->
       didYouMean (Scraper.tryStreetName longer tokens) (keys StreetNames) 1 = None.

(** Rectangles and elements for the concrete runs in exact arithmetic. *)
Definition exactElement (x y width height : Q) : Geometry.Element Q :=
  {| Geometry.text := "Dwelling";
     Geometry.bounds := {| Geometry.x := x; Geometry.y := y;
                           Geometry.width := width; Geometry.height := height |} |}.

Definition exactRectangle (x y width height : Q) : Geometry.Rectangle Q :=
  {| Geometry.x := x; Geometry.y := y; Geometry.width := width; Geometry.height := height |}.

(** The two rectangles share no inner point: one ends where, or before,
    the other begins, along x or along y. *)
Definition apart (a b : Geometry.Rectangle Q) : Prop :=
  (Geometry.x a + Geometry.width a <= Geometry.x b
   \/ Geometry.x b + Geometry.width b <= Geometry.x a
   \/ Geometry.y a + Geometry.height a <= Geometry.y b
   \/ Geometry.y b + Geometry.height b <= Geometry.y a)%Q.



(** A candidate with an unrecognised street name. *)
Definition unrecognised : Multiplexed.AddressCandidate := {|
  Multiplexed.houseNumber := "35";
  Multiplexed.streetName := "SKOOL TERACE";
  Multiplexed.suburbName := "PASKEVILLE";
  Multiplexed.threshold := Multiplexed.Number_MAX_VALUE;
  Multiplexed.candidate := validSplit
|}.

(** The matcher answers with an element of the list it was given. *)
Definition answersFromList (didYouMean : string -> list string -> nat -> option string)
  : Prop :=
  forall input matchList threshold answer,
    didYouMean input matchList threshold = Some answer -> In answer matchList.

(** Every character of the string satisfies [p]. *)
Fixpoint allChars (p : ascii -> bool) (s : string) : bool :=
  match s with
  | EmptyString => true
  | String c r => p c && allChars p r
  end.

(** The last character of the string, if any, satisfies [p]. *)
Definition endsIn (p : ascii -> bool) (s : string) : bool :=
  JS.headIs p (String.rev s).

(** The character occurs in the string. *)
Fixpoint hasChar (k : ascii) (s : string) : bool :=
  match s with
  | EmptyString => false
  | String c r => Ascii.eqb c k || hasChar k r
  end.

(** The fields of all the lines, in line order. *)
Fixpoint entriesOf (lines : list string) : Completion (list (string * string)) :=
  match lines with
  | [] => Normal []
  | line :: lines' =>
      entry ← Scraper.fieldsOf line;
      entries ← entriesOf lines';
      Normal (entry :: entries)
  end.

(** The second fields of the entries whose first field is [key], in order. *)
Definition secondFieldsOf (key : string) (entries : list (string * string)) : list string :=
  map snd (List.filter (fun entry => String.eqb (fst entry) key) entries).

(** Three lines of a street-name file. *)
Definition exampleStreetLines : list string :=
  ["Bay Road,Streaky Bay"; "Wells Street , Streaky Bay"; "bay road,Sceale Bay"].

(** What every record of the page parsers satisfies. *)
Definition completeRecord (url today : string) (d : DevelopmentApplication) : Prop :=
  applicationNumber d <> ""
  /\ address d <> ""
  /\ (JS.isFourDigits (address d) = true \/ JS.testSA false (address d) = true)
  /\ description d <> ""
  /\ informationUrl d = url
  /\ commentUrl d = Scraper.CommentUrl
  /\ scrapeDate d = today.

Definition notWhiteSpace (c : ascii) : bool := negb (JS.isWhiteSpace c).

(** A page in the old format, its elements sorted by y and then by x. *)
Definition textElement {num : Type} (text : string) (x y width height : num)
  : Geometry.Element num :=
  {| Geometry.text := text;
     Geometry.bounds := {| Geometry.x := x; Geometry.y := y;
                           Geometry.width := width; Geometry.height := height |} |}.

Definition oldFormatPage : list (Geometry.Element Q) :=
  [textElement "Application Number:" 0%Q 0%Q 10%Q 1%Q;
   textElement "931 / 001 / 19" 12%Q 0%Q 8%Q 1%Q;
   textElement "Application Fees:" 40%Q 0%Q 10%Q 1%Q;
   textElement "Property  Address:" 0%Q 5%Q 10%Q 1%Q;
   textElement "12 Smith ST" 12%Q 5%Q 6%Q 1%Q;
   textElement "STREAKY BAY" 19%Q 5%Q 8%Q 1%Q].

Definition oldFormatPageBinary64 : list (Geometry.Element float) :=
  [textElement "Application Number:" 0%float 0%float 10%float 1%float;
   textElement "931 / 001 / 19" 12%float 0%float 8%float 1%float;
   textElement "Application Fees:" 40%float 0%float 10%float 1%float;
   textElement "Property  Address:" 0%float 5%float 10%float 1%float;
   textElement "12 Smith ST" 12%float 5%float 6%float 1%float;
   textElement "STREAKY BAY" 19%float 5%float 8%float 1%float].

(** A page with no heading at all. *)
Definition headlessPage : list (Geometry.Element Q) :=
  [textElement "District Council of Streaky Bay" 0%Q 0%Q 30%Q 1%Q;
   textElement "Register 2019" 0%Q 2%Q 12%Q 1%Q].

Definition noDate (text : string) : string := "".

Definition exampleParse {num : Type} `{JSNumber num} `{JSNumberOrder num}
  : list (Geometry.Element num) -> string -> Completion (option DevelopmentApplication) :=
  Scraper.parseApplicationElements Fuzzy.didYouMean exampleStreetNames
    exampleStreetSuffixes exampleSuburbNames exampleHundredNames noDate "2019-03-15".

Definition exampleParseOld {num : Type} `{JSNumber num} `{JSNumberOrder num}
  : list (Geometry.Element num) -> string -> Completion (option DevelopmentApplication) :=
  Scraper.parseOldFormatApplicationElements Fuzzy.didYouMean exampleStreetNames
    exampleStreetSuffixes exampleSuburbNames exampleHundredNames noDate "2019-03-15".

Definition exampleParseNew {num : Type} `{JSNumber num} `{JSNumberOrder num}
  : list (Geometry.Element num) -> string -> Completion (option DevelopmentApplication) :=
  Scraper.parseNewFormatApplicationElements Fuzzy.didYouMean exampleStreetNames
    exampleStreetSuffixes exampleSuburbNames exampleHundredNames noDate "2019-03-15".

Definition parsedRecord : DevelopmentApplication := {|
  applicationNumber := "931/001/19";
  address := "12 SMITH STREET, STREAKY BAY SA 5680";
  description := "No description provided";
  informationUrl := "https://www.streakybay.sa.gov.au/register.pdf";
  commentUrl := "mailto:dcstreaky@streakybay.sa.gov.au";
  scrapeDate := "2019-03-15";
  receivedDate := ""
|}.

(** * Properties *)

(** ** The database write *)

Lemma replace_lookup_same (database : Table) (d : DevelopmentApplication) :
  Scraper.insertRow database d !! applicationNumber d = Some d.
Proof. unfold Scraper.insertRow. apply lookup_insert_eq. Qed.

Lemma replace_lookup_other (database : Table) (d : DevelopmentApplication) (key : string) :
  key ≠ applicationNumber d ->
  Scraper.insertRow database d !! key = database !! key.
Proof. intros Hne. unfold Scraper.insertRow. by rewrite lookup_insert_ne. Qed.

Lemma replace_twice (database : Table) (d : DevelopmentApplication) :
  Scraper.insertRow (Scraper.insertRow database d) d = Scraper.insertRow database d.
Proof. unfold Scraper.insertRow. apply insert_insert_eq. Qed.

(** The earlier version of [insertRow] ([insert or ignore]) leaves a row
    that is already there as it is, adds a row that is not, and is
    idempotent. *)
Lemma ignore_keeps_existing (database : Table) (d old : DevelopmentApplication) :
  database !! applicationNumber d = Some old ->
  Multiplexed.insertRow database d = database.
Proof. intros Hold. unfold Multiplexed.insertRow. by rewrite Hold. Qed.

Lemma ignore_adds_missing (database : Table) (d : DevelopmentApplication) :
  database !! applicationNumber d = None ->
  Multiplexed.insertRow database d !! applicationNumber d = Some d.
Proof.
  intros Hnone. unfold Multiplexed.insertRow. rewrite Hnone. apply lookup_insert_eq.
Qed.

Lemma ignore_twice (database : Table) (d : DevelopmentApplication) :
  Multiplexed.insertRow (Multiplexed.insertRow database d) d
  = Multiplexed.insertRow database d.
Proof.
  unfold Multiplexed.insertRow at 1.
  destruct (Multiplexed.insertRow database d !! applicationNumber d) eqn:Hrow; [done|].
  exfalso. unfold Multiplexed.insertRow in Hrow.
  destruct (database !! applicationNumber d) eqn:Hdb.
  - congruence.
  - rewrite lookup_insert_eq in Hrow. discriminate.
Qed.

(** C1, on [src/scraper.ts]: [insertRow] runs [insert or replace], so a row
    whose [applicationNumber] is already in the table is overwritten: here
    the stored address and description change. *)
Theorem insertRow_replaces_existing_row :
  let database : Table := {[ "931/001/19" := existingRow ]} in
  database !! "931/001/19" = Some existingRow
  /\ Scraper.insertRow database rescrapedRow !! "931/001/19" = Some rescrapedRow
  /\ address rescrapedRow <> address existingRow
  /\ Multiplexed.insertRow database rescrapedRow !! "931/001/19" = Some existingRow.
Proof.
  cbv zeta. split; [apply lookup_singleton_eq|].
  split; [apply (replace_lookup_same _ rescrapedRow)|].
  split; [discriminate|].
  rewrite (ignore_keeps_existing _ rescrapedRow existingRow).
  - apply lookup_singleton_eq.
  - apply lookup_singleton_eq.
Qed.

(** ** The page loop *)

Section ParsePdfProperties.

Variable Page : Type.
Variable parseApplicationElements : Page -> string -> option DevelopmentApplication.

Lemma someWithNumber_true (l : list DevelopmentApplication) (number : string) :
  Scraper.someWithNumber l number = true <->
  exists d, In d l /\ applicationNumber d = number.
Proof.
  unfold Scraper.someWithNumber. rewrite existsb_exists.
  split; intros [d [Hin Heq]]; exists d; split; auto.
  - by apply String.eqb_eq.
  - by apply String.eqb_eq.
Qed.

Lemma someWithNumber_false (l : list DevelopmentApplication) (number : string) :
  Scraper.someWithNumber l number = false <->
  forall d, In d l -> applicationNumber d <> number.
Proof.
  split.
  - intros Hfalse d Hin Heq.
    assert (Scraper.someWithNumber l number = true) as Htrue
      by (apply someWithNumber_true; eauto).
    congruence.
  - intros Hall. destruct (Scraper.someWithNumber l number) eqn:Hsome; [|done].
    apply someWithNumber_true in Hsome as [d [Hin Heq]]. by destruct (Hall d Hin).
Qed.

Lemma parsePages_fold (url : string) (pages : list Page) (acc : list DevelopmentApplication) :
  Scraper.parsePages parseApplicationElements url pages acc
  = fold_left Scraper.pushApplication
      (map (fun page => parseApplicationElements page url) pages) acc.
Proof.
  revert acc. induction pages as [|page pages IH]; intros acc; simpl; [done|].
  apply IH.
Qed.

Lemma pushApplication_NoDup (acc : list DevelopmentApplication)
  (r : option DevelopmentApplication) :
  List.NoDup (map applicationNumber acc) ->
  List.NoDup (map applicationNumber (Scraper.pushApplication acc r)).
Proof.
  intros Hnd. destruct r as [d|]; simpl; [|done].
  destruct (Scraper.someWithNumber acc (applicationNumber d)) eqn:Hsome; [done|].
  unfold JS.push. rewrite map_app. simpl.
  apply NoDup_ListNoDup. apply NoDup_app. split; [by apply NoDup_ListNoDup|].
  split; [|apply NoDup_singleton].
  intros number Hin Hin'. apply list_elem_of_singleton in Hin'. subst number.
  apply list_elem_of_In, in_map_iff in Hin as [d' [Heq Hin]].
  rewrite someWithNumber_false in Hsome. by destruct (Hsome d' Hin).
Qed.

Lemma fold_push_NoDup (results : list (option DevelopmentApplication))
  (acc : list DevelopmentApplication) :
  List.NoDup (map applicationNumber acc) ->
  List.NoDup (map applicationNumber (fold_left Scraper.pushApplication results acc)).
Proof.
  revert acc. induction results as [|r results IH]; intros acc Hnd; simpl; [done|].
  apply IH. by apply pushApplication_NoDup.
Qed.

Lemma fold_push_In (results : list (option DevelopmentApplication))
  (acc : list DevelopmentApplication) (d : DevelopmentApplication) :
  In d (fold_left Scraper.pushApplication results acc) <->
  In d acc \/
  ((forall o, In o acc -> applicationNumber o <> applicationNumber d)
   /\ exists i, firstOccurrence results i d).
Proof.
  revert acc. induction results as [|r results IH]; intros acc; simpl.
  - split; [auto|]. intros [Hin|[_ [i [Hi _]]]]; [done|]. by destruct i.
  - rewrite IH. clear IH. unfold firstOccurrence. split.
    + intros [Hin|[Hfresh [i [Hi Hfirst]]]].
      * destruct r as [a|]; simpl in Hin; [|by left].
        destruct (Scraper.someWithNumber acc (applicationNumber a)) eqn:Hsome; [by left|].
        apply in_app_or in Hin as [Hin|[->|[]]]; [by left|]. right.
        rewrite someWithNumber_false in Hsome. split; [done|].
        exists 0. split; [done|]. intros j d' Hj. lia.
      * assert (forall o, In o acc -> applicationNumber o <> applicationNumber d) as Hacc.
        { intros o Hin. apply Hfresh. destruct r as [a|]; simpl; [|done].
          destruct (Scraper.someWithNumber acc (applicationNumber a)); [done|].
          apply in_or_app. by left. }
        right. split; [done|]. exists (S i). split; [done|].
        intros [|j] d' Hj Hlook; simpl in Hlook.
        -- injection Hlook as ->. simpl in Hfresh.
           destruct (Scraper.someWithNumber acc (applicationNumber d')) eqn:Hsome.
           ++ apply someWithNumber_true in Hsome as [o [Hin Heq]].
              intros Heq'. apply (Hacc o Hin). congruence.
           ++ apply Hfresh, in_or_app. right. by left.
        -- apply (Hfirst j d'); [lia|done].
    + intros [Hin|[Hfresh [i [Hi Hfirst]]]].
      * left. destruct r as [a|]; simpl; [|done].
        destruct (Scraper.someWithNumber acc (applicationNumber a)); [done|].
        apply in_or_app. by left.
      * destruct i as [|i]; simpl in Hi.
        -- injection Hi as ->. left. simpl.
           destruct (Scraper.someWithNumber acc (applicationNumber d)) eqn:Hsome.
           ++ apply someWithNumber_true in Hsome as [o [Hin Heq]]. by destruct (Hfresh o Hin).
           ++ apply in_or_app. right. by left.
        -- right. split.
           ++ intros o Hin. destruct r as [a|]; simpl in Hin; [|by apply Hfresh].
              destruct (Scraper.someWithNumber acc (applicationNumber a)); [by apply Hfresh|].
              apply in_app_or in Hin as [Hin|[->|[]]]; [by apply Hfresh|].
              apply (Hfirst 0 o); [lia|done].
           ++ exists i. split; [done|]. intros j d' Hj Hlook.
              apply (Hfirst (S j) d'); [lia|done].
Qed.

(** C9: the list [parsePdf] returns holds no application number twice, and
    its records are exactly the first occurrences: a record is in the list
    if and only if some page read yields it and no earlier page yields a
    record with the same application number. *)
Theorem parsePdf_keeps_first_occurrence (url : string) (pages : list Page) :
  List.NoDup (map applicationNumber
                (Scraper.parsePdf parseApplicationElements url pages))
  /\ forall d, In d (Scraper.parsePdf parseApplicationElements url pages) <->
               exists i, firstOccurrence (pageResults parseApplicationElements url pages) i d.
Proof.
  unfold Scraper.parsePdf, pageResults. rewrite parsePages_fold. split.
  - apply fold_push_NoDup. constructor.
  - intros d. rewrite fold_push_In. split.
    + intros [[]|[_ Hex]]. done.
    + intros Hex. right. split; [|done]. intros o [].
Qed.

End ParsePdfProperties.

(** ** The comparator of the multiplexed-address version *)

Lemma isEmpty_true (s : string) : Multiplexed.isEmpty s = true <-> s = "".
Proof. unfold Multiplexed.isEmpty. apply String.eqb_eq. Qed.

Lemma isEmpty_false (s : string) : Multiplexed.isEmpty s = false <-> s <> "".
Proof. unfold Multiplexed.isEmpty. apply String.eqb_neq. Qed.

(** C4: when both thresholds are at most 2, a candidate with a house
    number is ordered before one without, whatever the two thresholds:
    the comparator answers -1 for (a, b) and 1 for (b, a). *)
Theorem addressComparer_prefers_house_number (a b : Multiplexed.AddressCandidate) :
  (Multiplexed.threshold a <= 2)%Z ->
  (Multiplexed.threshold b <= 2)%Z ->
  Multiplexed.houseNumber a <> "" ->
  Multiplexed.houseNumber b = "" ->
  Multiplexed.addressComparer a b = Some (-1)%Z
  /\ Multiplexed.addressComparer b a = Some 1%Z.
Proof.
  intros Ha Hb Hna Hnb. apply isEmpty_false in Hna. apply isEmpty_true in Hnb.
  apply Z.leb_le in Ha, Hb. unfold Multiplexed.addressComparer.
  rewrite Ha, Hb, Hna, Hnb. simpl. done.
Qed.

Lemma addressComparer_prefers_house_number_witness :
  Multiplexed.addressComparer numberedTwoErrors unnumberedExact = Some (-1)%Z
  /\ Multiplexed.addressComparer unnumberedExact numberedTwoErrors = Some 1%Z.
Proof.
  apply (addressComparer_prefers_house_number numberedTwoErrors unnumberedExact).
  - simpl. lia.
  - simpl. lia.
  - simpl. discriminate.
  - reflexivity.
Defined.

(** C5: with equal thresholds and the same house-number emptiness, the
    candidate whose split has no invalid hundred name is ordered first. *)
Theorem addressComparer_avoids_invalid_hundred (a b : Multiplexed.AddressCandidate) :
  Multiplexed.threshold a = Multiplexed.threshold b ->
  Multiplexed.isEmpty (Multiplexed.houseNumber a)
  = Multiplexed.isEmpty (Multiplexed.houseNumber b) ->
  Multiplexed.hasInvalidHundredName (Multiplexed.candidate a) = false ->
  Multiplexed.hasInvalidHundredName (Multiplexed.candidate b) = true ->
  Multiplexed.addressComparer a b = Some (-1)%Z
  /\ Multiplexed.addressComparer b a = Some 1%Z.
Proof.
  intros Ht He Hfa Hfb. unfold Multiplexed.addressComparer.
  rewrite Ht, He, Hfa, Hfb.
  rewrite Z.gtb_ltb, Z.ltb_irrefl.
  destruct (Multiplexed.isEmpty (Multiplexed.houseNumber b));
    destruct (Multiplexed.threshold b <=? 2)%Z; simpl; done.
Qed.

Lemma addressComparer_avoids_invalid_hundred_witness :
  Multiplexed.addressComparer lakeViewRoad lakeRoad = Some (-1)%Z
  /\ Multiplexed.addressComparer lakeRoad lakeViewRoad = Some 1%Z.
Proof.
  apply (addressComparer_avoids_invalid_hundred lakeViewRoad lakeRoad); reflexivity.
Defined.

(** C10: [addressComparer] returns [undefined] on some pair, and it does so
    exactly when the two candidates tie on the threshold, on the emptiness
    of the house number and on the invalid-hundred-name flag; in
    particular it never returns 0. *)
Theorem addressComparer_undefined_on_ties :
  (exists a b, Multiplexed.addressComparer a b = None)
  /\ (forall a b, Multiplexed.addressComparer a b = None <-> tied a b)
  /\ (forall a b, Multiplexed.addressComparer a b <> Some 0%Z).
Proof.
  assert (forall a b, Multiplexed.addressComparer a b = None <-> tied a b) as Hties.
  { intros a b. unfold tied, Multiplexed.addressComparer.
    destruct (Z.compare_spec (Multiplexed.threshold a) (Multiplexed.threshold b)) as [Heq|Hlt|Hgt].
    - rewrite Heq.
      rewrite Z.gtb_ltb, Z.ltb_irrefl.
      destruct (Multiplexed.isEmpty (Multiplexed.houseNumber a)),
        (Multiplexed.isEmpty (Multiplexed.houseNumber b)),
        (Multiplexed.hasInvalidHundredName (Multiplexed.candidate a)),
        (Multiplexed.hasInvalidHundredName (Multiplexed.candidate b)),
        (Multiplexed.threshold b <=? 2)%Z; simpl; split; try done; intros (_ & ? & ?); done.
    - rewrite Z.gtb_ltb.
      assert ((Multiplexed.threshold b <? Multiplexed.threshold a)%Z = false) as ->
        by (apply Z.ltb_ge; lia).
      assert ((Multiplexed.threshold a <? Multiplexed.threshold b)%Z = true) as ->
        by (apply Z.ltb_lt; lia).
      split; [|intros [? _]; lia].
      destruct (_ && _); [|done].
      destruct (_ && _); [done|]. destruct (_ && _); done.
    - rewrite Z.gtb_ltb.
      assert ((Multiplexed.threshold b <? Multiplexed.threshold a)%Z = true) as ->
        by (apply Z.ltb_lt; lia).
      split; [|intros [? _]; lia].
      destruct (_ && _); [|done].
      destruct (_ && _); [done|]. destruct (_ && _); done. }
  split; [|split].
  - exists lakeViewRoad, lakeViewRoad. reflexivity.
  - exact Hties.
  - intros a b. unfold Multiplexed.addressComparer.
    repeat match goal with |- context [if ?c then _ else _] => destruct c end; discriminate.
Qed.

(** ** The overlap percentage *)

Lemma exact_intersection_area (element : Geometry.Element Q)
  (rectangle : Geometry.Rectangle Q) :
  (0 < Geometry.width (Geometry.bounds element))%Q ->
  (0 < Geometry.height (Geometry.bounds element))%Q ->
  Geometry.insideExact element rectangle ->
  (Geometry.getArea (Geometry.intersect rectangle (Geometry.bounds element)) == Geometry.getArea (Geometry.bounds element))%Q.
Proof.
  destruct element as [t [ex ey ew eh]], rectangle as [rx ry rw rh].
  unfold Geometry.insideExact, Geometry.getArea, Geometry.intersect. cbn.
  intros Hw Hh (Hx1 & Hx2 & Hy1 & Hy2).
  pose proof (Q.max_r rx ex Hx1) as Ex1.
  pose proof (Q.max_r ry ey Hy1) as Ey1.
  pose proof (Q.min_r (rx + rw) (ex + ew) Hx2) as Ex2.
  pose proof (Q.min_r (ry + rh) (ey + eh) Hy2) as Ey2.
  assert (Qle_bool (Qmax rx ex) (Qmin (rx + rw) (ex + ew)) = true) as ->.
  { apply Qle_bool_iff. rewrite Ex1, Ex2. lra. }
  assert (Qle_bool (Qmax ry ey) (Qmin (ry + rh) (ey + eh)) = true) as ->.
  { apply Qle_bool_iff. rewrite Ey1, Ey2. lra. }
  cbn. rewrite Ex1, Ex2, Ey1, Ey2. ring.
Qed.

(** C8, as the program computes it: a fragment of positive area inside the
    rectangle whose overlap percentage is 100.00000000000001, not 100. *)
Lemma overlap_of_inner_fragment_not_100 :
  Geometry.insideBinary64 roundedElement pageRectangle = true
  /\ PrimFloat.ltb 0%float (Geometry.getArea (Geometry.bounds roundedElement)) = true
  /\ Geometry.getPercentageOfElementInRectangle roundedElement pageRectangle
     = 0x1.9000000000001p+6%float
  /\ PrimFloat.eqb
       (Geometry.getPercentageOfElementInRectangle roundedElement pageRectangle) 100%float
     = false.
Proof. repeat split; vm_compute; reflexivity. Qed.

(** C8, amended.  In binary64 the percentage is 0 when the fragment's area
    is 0 and [(intersection area * 100) / fragment area] otherwise, so no
    division by zero is evaluated.  In exact arithmetic the same holds, and
    a fragment of positive width and height that lies inside the rectangle
    gives exactly 100. *)
Theorem overlap_percentage_contract :
  (forall (element : Geometry.Element float) (rectangle : Geometry.Rectangle float),
      (PrimFloat.eqb (Geometry.getArea (Geometry.bounds element)) 0%float = true ->
       Geometry.getPercentageOfElementInRectangle element rectangle = 0%float)
      /\ (PrimFloat.eqb (Geometry.getArea (Geometry.bounds element)) 0%float = false ->
          Geometry.getPercentageOfElementInRectangle element rectangle
          = (Geometry.getArea (Geometry.intersect rectangle (Geometry.bounds element)) * 100
             / Geometry.getArea (Geometry.bounds element))%float))
  /\ (forall (element : Geometry.Element Q) (rectangle : Geometry.Rectangle Q),
      (Geometry.getArea (Geometry.bounds element) == 0 ->
       Geometry.getPercentageOfElementInRectangle element rectangle == 0)%Q
      /\ (~ (Geometry.getArea (Geometry.bounds element) == 0)%Q ->
          Geometry.getPercentageOfElementInRectangle element rectangle
          == 100 * Geometry.getArea (Geometry.intersect rectangle (Geometry.bounds element))
             / Geometry.getArea (Geometry.bounds element))%Q
      /\ ((0 < Geometry.width (Geometry.bounds element))%Q ->
          (0 < Geometry.height (Geometry.bounds element))%Q ->
          Geometry.insideExact element rectangle ->
          Geometry.getPercentageOfElementInRectangle element rectangle == 100)%Q).
Proof.
  split.
  - intros element rectangle. unfold Geometry.getPercentageOfElementInRectangle. cbn.
    split; intros ->; reflexivity.
  - intros element rectangle.
    assert (forall a : Q, ~ (a == 0)%Q -> Qeq_bool a 0 = false) as Hneq.
    { intros a Ha. destruct (Qeq_bool a 0) eqn:Heq; [|done].
      apply Qeq_bool_iff in Heq. by destruct Ha. }
    unfold Geometry.getPercentageOfElementInRectangle. cbn. split; [|split].
    + intros Hzero. apply Qeq_bool_iff in Hzero. rewrite Hzero. reflexivity.
    + intros Hpos. rewrite (Hneq _ Hpos). field.
      split; intros Hz; apply Hpos; rewrite Hz; ring.
    + intros Hw Hh Hin.
      pose proof (exact_intersection_area element rectangle Hw Hh Hin) as Harea.
      unfold Geometry.getArea in Harea. cbn in Harea.
      assert (~ (Geometry.width (Geometry.bounds element)
                 * Geometry.height (Geometry.bounds element) == 0)%Q) as Hpos by nra.
      rewrite (Hneq _ Hpos), Harea. field. split; lra.
Qed.

(** ** The single-field address normaliser *)

Lemma digit_not_comma (c : ascii) : JS.isDigit c = true -> Scraper.isComma c = false.
Proof. destruct c as [[] [] [] [] [] [] [] []]; simpl; intros H; done. Qed.

Lemma isComma_true (c : ascii) : Scraper.isComma c = true -> c = ","%char.
Proof. unfold Scraper.isComma. apply Ascii.eqb_eq. Qed.

Lemma digit_range (c : ascii) :
  JS.isDigit c = true <-> 48 <= nat_of_ascii c <= 57.
Proof.
  destruct c as [[] [] [] [] [] [] [] []]; vm_compute; split;
    first [ done | intros [? ?]; lia | intros _; split; lia ].
Qed.

Lemma pop_snoc {A : Type} (init : list A) (last : A) :
  JS.pop (init ++ [last]) = Some (last, init).
Proof. unfold JS.pop. rewrite rev_app_distr. simpl. by rewrite rev_involutive. Qed.

Lemma split_snoc (s : string) : exists init last, JS.split s = init ++ [last].
Proof.
  induction s as [|c r [init [last IH]]]; simpl.
  - by exists [], "".
  - destruct (Ascii.eqb c " ").
    + exists ("" :: init), last. by rewrite IH.
    + rewrite IH. destruct init as [|t init]; simpl.
      * by exists [], (String c last).
      * by exists (String c t :: init), last.
Qed.

(** C6, as the program computes it: "1,2345 ..." does not begin with one
    digit, a comma and exactly three digits, and loses its comma all the
    same. *)
Lemma comma_deleted_before_four_digits :
  exactlyThreeDigitsPattern "1,2345 Smith ST STREAKY BAY" = false
  /\ Scraper.removeThousandsComma "1,2345 Smith ST STREAKY BAY"
     = "12345 Smith ST STREAKY BAY"
  /\ firstToken "1,2345 Smith ST STREAKY BAY" = "12345"
  /\ exampleFormatAddress "1,2345 Smith ST STREAKY BAY"
     = Normal "12345 SMITH STREET, STREAKY BAY SA 5680".
Proof. repeat split; vm_compute; reflexivity. Qed.

(** C6, amended: an address that begins with one digit or two digits, a
    comma and three digits, whatever follows them, has that comma deleted
    before it is split into tokens; every other address is left as it is
    by this step.  The two addresses of the specification give the first
    tokens "4665" and "11287". *)
Theorem removeThousandsComma_deletes_comma :
  (forall address result,
      LeadingThousands address result ->
      Scraper.removeThousandsComma address = result)
  /\ (forall address,
        (forall result, ~ LeadingThousands address result) ->
        Scraper.removeThousandsComma address = address)
  /\ firstToken "4,665 Princes HWY MENINGIE 5264" = "4665"
  /\ firstToken "11,287 Princes HWY SALT CREEK 5264" = "11287".
Proof.
  split; [|split; [|split; vm_compute; reflexivity]].
  - intros address result [a b c d rest Ha Hb Hc Hd|a a' b c d rest Ha Ha' Hb Hc Hd];
      unfold Scraper.removeThousandsComma; simpl.
    + rewrite Ha, Hb, Hc, Hd. reflexivity.
    + rewrite Ha, Ha', Hb, Hc, Hd, (digit_not_comma a' Ha'). reflexivity.
  - intros address Hnone. unfold Scraper.removeThousandsComma.
    destruct (Scraper.testPrefix [_; _; _; _; _] address) eqn:Hone.
    { exfalso. destruct address as [|a [|k [|b [|c [|d rest]]]]]; simpl in Hone;
        rewrite ?andb_false_r in Hone; try discriminate.
      repeat (apply andb_prop in Hone as [? Hone]).
      assert (k = ","%char) as -> by by apply isComma_true.
      apply (Hnone (String a (String b (String c (String d rest))))).
      by constructor. }
    destruct (Scraper.testPrefix [_; _; _; _; _; _] address) eqn:Htwo; [|done].
    exfalso. destruct address as [|a [|a' [|k [|b [|c [|d rest]]]]]]; simpl in Htwo;
      rewrite ?andb_false_r in Htwo; try discriminate.
    repeat (apply andb_prop in Htwo as [? Htwo]).
    assert (k = ","%char) as -> by by apply isComma_true.
    apply (Hnone (String a (String a' (String b (String c (String d rest)))))).
    by constructor.
Qed.

Lemma isFourDigits_spec (token : string) :
  JS.isFourDigits token = true <-> isPostCodeToken token.
Proof.
  unfold isPostCodeToken. split.
  - destruct token as [|a [|b [|c [|d [|]]]]]; simpl; try discriminate.
    intros H. repeat (apply andb_prop in H as [H ?]).
    exists a, b, c, d. split; [done|].
    repeat first [apply List.Forall_nil | apply List.Forall_cons; [by apply digit_range|]].
  - intros (a & b & c & d & -> & Hall). simpl.
    repeat match goal with H : Forall _ (_ :: _) |- _ => inversion_clear H end.
    repeat (apply andb_true_intro; split); by apply digit_range.
Qed.

(** The two results the comments of [formatAddress] give, and the early
    [return address] for an address that is only a post code. *)
Example formatAddress_source_examples :
  exampleFormatAddress "2,800 Woods Well RD COLEBATCH 5266"
  = Normal "2800 WOODS WELL ROAD, COLEBATCH SA 5266"
  /\ exampleFormatAddress "22 Jefferson CT 5263"
     = Normal "22 JEFFERSON COURT, WELLINGTON EAST SA 5263"
  /\ exampleFormatAddress "Sec 26 Hd Palabie" = Normal "Sec 26, POOCHERA SA 5655"
  /\ exampleFormatAddress "0 0, 0" = Normal ""
  /\ exampleFormatAddress "5264" = Normal "5264".
Proof. repeat split; vm_compute; reflexivity. Qed.

Lemma append_cons (c : ascii) (s t : string) :
  String c s +:+ t = String c (s +:+ t).
Proof. reflexivity. Qed.

Lemma append_empty (s t : string) : s +:+ t = "" -> t = "".
Proof. destruct s; [done|]. rewrite append_cons. discriminate. Qed.

Lemma join_split (s : string) : JS.join " " (JS.split s) = s.
Proof.
  induction s as [|c r IH]; simpl; [done|].
  destruct (Ascii.eqb_spec c " ") as [->|Hne].
  - destruct (JS.split r) as [|t ts] eqn:Hsplit.
    + destruct (split_snoc r) as (init & last & Heq). rewrite Hsplit in Heq.
      by destruct init.
    + change (JS.join " " ("" :: t :: ts)) with ("" +:+ " " +:+ JS.join " " (t :: ts)).
      by rewrite IH.
  - destruct (JS.split r) as [|t ts] eqn:Hsplit.
    + destruct (split_snoc r) as (init & last & Heq). rewrite Hsplit in Heq.
      by destruct init.
    + rewrite <- IH. destruct ts as [|t' ts]; [done|].
      change (JS.join " " (String c t :: t' :: ts))
        with (String c t +:+ " " +:+ JS.join " " (t' :: ts)).
      change (JS.join " " (t :: t' :: ts)) with (t +:+ " " +:+ JS.join " " (t' :: ts)).
      by rewrite append_cons.
Qed.

(** ** The post code and the state *)

Lemma upperChar_sameLetter (a b : ascii) :
  JS.isUpper b = true -> (JS.upperChar a = b <-> sameLetter a b).
Proof.
  unfold JS.isUpper, JS.upperChar, JS.isLower, sameLetter. intros Hb.
  apply andb_prop in Hb as [Hb1 Hb2]. apply Nat.leb_le in Hb1, Hb2.
  pose proof (nat_ascii_bounded a) as Ha.
  destruct ((97 <=? nat_of_ascii a) && (nat_of_ascii a <=? 122)) eqn:Hlower.
  - apply andb_prop in Hlower as [Hl1 Hl2]. apply Nat.leb_le in Hl1, Hl2. split.
    + intros <-. right. left. rewrite nat_ascii_embedding by lia. lia.
    + intros [->|[[_ Heq]|[[_ Hup] _]]]; [lia| |lia].
      replace (nat_of_ascii a - 32) with (nat_of_ascii b) by lia.
      apply ascii_nat_embedding.
  - apply andb_false_iff in Hlower. split; [by left|].
    intros [->|[[_ Heq]|[[Hup _] Heq]]]; [done| |lia].
    destruct Hlower as [Hl|Hl]; apply Nat.leb_gt in Hl; lia.
Qed.

Lemma toUpperCase_equalIgnoringCase (token state : string) :
  allChars JS.isUpper state = true ->
  (JS.toUpperCase token = state <-> equalIgnoringCase token state).
Proof.
  unfold JS.toUpperCase. revert state.
  induction token as [|a token IH]; intros [|b state]; simpl; try done.
  intros Hall. apply andb_prop in Hall as [Hb Hall]. split.
  - intros [= Hc Hs]. split; [by apply upperChar_sameLetter|by apply IH].
  - intros [Hc Hs]. f_equal; [by apply upperChar_sameLetter|by apply IH].
Qed.

Lemma includes_States_namesState (token : string) :
  Scraper.includes Scraper.States (JS.toUpperCase token) = true <->
  exists state, namesState token state.
Proof.
  unfold Scraper.includes, namesState. rewrite existsb_exists. split.
  - intros (state & Hin & Heq). apply String.eqb_eq in Heq. exists state. split; [done|].
    apply toUpperCase_equalIgnoringCase; [|done].
    simpl in Hin. repeat destruct Hin as [<-|Hin]; first [reflexivity | destruct Hin].
  - intros (state & Hin & Heq). exists state. split; [done|].
    apply String.eqb_eq. apply toUpperCase_equalIgnoringCase; [|done].
    simpl in Hin. repeat destruct Hin as [<-|Hin]; first [reflexivity | destruct Hin].
Qed.

Lemma namesState_upper (token state : string) :
  namesState token state -> JS.toUpperCase token = state.
Proof.
  intros [Hin Heq]. apply toUpperCase_equalIgnoringCase; [|done].
  simpl in Hin. repeat destruct Hin as [<-|Hin]; first [reflexivity | destruct Hin].
Qed.

Lemma popPostCode_postcode (init : list string) (token : string) :
  isPostCodeToken token ->
  Scraper.popPostCode (init ++ [token]) = Some (Some token, init).
Proof.
  intros Hpost. unfold Scraper.popPostCode. rewrite pop_snoc.
  apply isFourDigits_spec in Hpost. by rewrite Hpost.
Qed.

Lemma popPostCode_other (init : list string) (token : string) :
  ~ isPostCodeToken token ->
  Scraper.popPostCode (init ++ [token]) = Some (None, init ++ [token]).
Proof.
  intros Hpost. unfold Scraper.popPostCode. rewrite pop_snoc.
  destruct (JS.isFourDigits token) eqn:Hfour; [|done].
  apply isFourDigits_spec in Hfour. by destruct Hpost.
Qed.

Lemma popState_state (init : list string) (token state : string) :
  namesState token state -> Scraper.popState (init ++ [token]) = Some (state, init).
Proof.
  intros Hstate. unfold Scraper.popState. rewrite pop_snoc.
  assert (Scraper.includes Scraper.States (JS.toUpperCase token) = true) as ->
    by (apply includes_States_namesState; eauto).
  by rewrite (namesState_upper _ _ Hstate).
Qed.

Lemma popState_other (init : list string) (token : string) :
  namesNoState token -> Scraper.popState (init ++ [token]) = Some ("SA", init ++ [token]).
Proof.
  intros Hnone. unfold Scraper.popState. rewrite pop_snoc.
  destruct (Scraper.includes _ _) eqn:Hinc; [|done].
  apply includes_States_namesState in Hinc as [state Hstate]. by destruct (Hnone state).
Qed.

Lemma trailer_steps (all : list string) (postCode : option string) (state : string)
  (tokens : list string) :
  Trailer all postCode state tokens ->
  exists tokens1, Scraper.popPostCode all = Some (postCode, tokens1)
                  /\ Scraper.popState tokens1 = Some (state, tokens).
Proof.
  intros [rest token pc st Hpc Hst|rest token pc Hpc Hst|rest token st Hpc Hst
         |rest token Hpc Hst].
  - exists (rest ++ [token]). change [token; pc] with ([token] ++ [pc]).
    rewrite app_assoc. split; [by apply popPostCode_postcode|by apply popState_state].
  - exists (rest ++ [token]). change [token; pc] with ([token] ++ [pc]).
    rewrite app_assoc. split; [by apply popPostCode_postcode|by apply popState_other].
  - exists (rest ++ [token]). split; [by apply popPostCode_other|by apply popState_state].
  - exists (rest ++ [token]). split; [by apply popPostCode_other|by apply popState_other].
Qed.

Lemma isPostCodeToken_dec (token : string) : isPostCodeToken token \/ ~ isPostCodeToken token.
Proof.
  destruct (JS.isFourDigits token) eqn:Hfour.
  - left. by apply isFourDigits_spec.
  - right. intros Hpost. apply isFourDigits_spec in Hpost. congruence.
Qed.

Lemma namesState_dec (token : string) : (exists state, namesState token state) \/ namesNoState token.
Proof.
  destruct (Scraper.includes Scraper.States (JS.toUpperCase token)) eqn:Hinc.
  - left. by apply includes_States_namesState.
  - right. intros state Hstate.
    assert (Scraper.includes Scraper.States (JS.toUpperCase token) = true)
      by (apply includes_States_namesState; eauto).
    congruence.
Qed.

Lemma trailer_covers (init : list string) (token : string) :
  (init = [] /\ isPostCodeToken token)
  \/ exists postCode state tokens, Trailer (init ++ [token]) postCode state tokens.
Proof.
  destruct (isPostCodeToken_dec token) as [Hpost|Hpost].
  - destruct init as [|first init] using rev_ind; [by left|]. right. clear IHinit.
    rewrite <- app_assoc. simpl.
    destruct (namesState_dec first) as [[state Hstate]|Hnone].
    + exists (Some token), state, init. by constructor.
    + exists (Some token), "SA", (init ++ [first]). by constructor.
  - right. destruct (namesState_dec token) as [[state Hstate]|Hnone].
    + exists None, state, init. by constructor.
    + exists None, "SA", (init ++ [token]). by constructor.
Qed.

Section TrailerOfAddress.

Variable didYouMean : string -> list string -> nat -> option string.
Variable StreetNames : list (string * list string).
Variable StreetSuffixes : list (string * string).
Variable SuburbNames : list (string * string).
Variable HundredNames : list (string * list string).

(** C7: an address that is blank or filler is rejected before it is split
    into tokens.  For every other address, with [cleaned] its cleaned
    text: either [cleaned] is nothing but a four-digit post code, which is
    returned as it is, or the tokens end as the claim says.  A last token
    of exactly four digits is popped as the post code; then a last token
    that is one of the eight abbreviations in any letter case is popped
    and the state is that abbreviation in upper case; otherwise the state
    is "SA" and no token is removed.  [formatAddress] goes on with exactly
    that post code, that state and those tokens, and they make up the
    fallback address it builds. *)
Theorem formatAddress_pops_postcode_then_state (applicationNumber address : string) :
  let cleaned := Scraper.removeThousandsComma (Scraper.cleanAddress address) in
  let formatted :=
    Scraper.formatAddress didYouMean StreetNames StreetSuffixes SuburbNames HundredNames
      applicationNumber address in
  (Scraper.isIgnoredAddress (Scraper.cleanAddress address) = true
   /\ formatted = Normal "")
  \/ (Scraper.isIgnoredAddress (Scraper.cleanAddress address) = false
      /\ ((isPostCodeToken cleaned /\ formatted = Normal cleaned)
          \/ exists postCode state tokens, Trailer (JS.split cleaned) postCode state tokens)
      /\ forall postCode state tokens,
           Trailer (JS.split cleaned) postCode state tokens ->
           Scraper.resolveAddress didYouMean StreetNames StreetSuffixes SuburbNames
             HundredNames address
           = resolveTokens didYouMean StreetNames StreetSuffixes SuburbNames HundredNames
               cleaned postCode state tokens
           /\ formatted
              = (progress ← resolveTokens didYouMean StreetNames StreetSuffixes SuburbNames
                              HundredNames cleaned postCode state tokens;
                 Normal (resultOf progress))
           /\ forall resolution,
                Scraper.resolveAddress didYouMean StreetNames StreetSuffixes SuburbNames
                  HundredNames address = Normal (Scraper.Reached resolution) ->
                Scraper.fallbackAddress resolution
                = match postCode with
                  | Some postCode => JS.trim (JS.join " " (tokens ++ [state; postCode]))
                  | None => cleaned
                  end).
Proof.
  intros cleaned formatted.
  destruct (Scraper.isIgnoredAddress (Scraper.cleanAddress address)) eqn:Hkept.
  { left. split; [done|].
    unfold formatted, Scraper.formatAddress, Scraper.resolveAddress. by rewrite Hkept. }
  right. split; [done|].
  assert (forall postCode state tokens,
             Trailer (JS.split cleaned) postCode state tokens ->
             Scraper.resolveAddress didYouMean StreetNames StreetSuffixes SuburbNames
               HundredNames address
             = resolveTokens didYouMean StreetNames StreetSuffixes SuburbNames HundredNames
                 cleaned postCode state tokens) as Hsteps.
  { intros postCode state tokens Htrailer.
    destruct (trailer_steps _ _ _ _ Htrailer) as (tokens1 & Hpost & Hstate).
    unfold Scraper.resolveAddress. rewrite Hkept. fold cleaned. by rewrite Hpost, Hstate. }
  split.
  - destruct (split_snoc cleaned) as (init & token & Hsplit).
    destruct (trailer_covers init token) as [[-> Hpost]|Htrailer].
    + left. pose proof (join_split cleaned) as Hjoin. rewrite Hsplit in Hjoin.
      cbn in Hjoin. subst token. split; [done|].
      unfold formatted, Scraper.formatAddress, Scraper.resolveAddress.
      rewrite Hkept. fold cleaned. rewrite Hsplit.
      by rewrite (popPostCode_postcode [] cleaned Hpost).
    + right. by rewrite Hsplit.
  - intros postCode state tokens Htrailer. split; [by apply Hsteps|]. split.
    + unfold formatted, Scraper.formatAddress. rewrite (Hsteps _ _ _ Htrailer).
      destruct (resolveTokens _ _ _ _ _ _ _ _ _) as [[returned|resolution]|]; done.
    + intros resolution. rewrite (Hsteps _ _ _ Htrailer). unfold resolveTokens.
      destruct (Scraper.findHundredName _ _ _ _ _) as [[[hasHundred suburb] tokens3]|];
        [|done].
      cbn -[Scraper.findSuburbName Scraper.findStreetName].
      destruct (if hasHundred then _ else _) as [suburb' tokens4].
      destruct (Scraper.findStreetName _ _ _ _ _ _) as [[[street suburb''] tokens5]|];
        [|done].
      cbn. intros [= <-]. cbn. unfold Scraper.fallbackAddressOf. by destruct postCode.
Qed.

End TrailerOfAddress.

Lemma formatAddress_pops_postcode_then_state_witness :
  exampleResolveAddress "lot 3 Smith ST, STREAKY BAY wa 5680"
  = resolveTokens Fuzzy.didYouMean exampleStreetNames exampleStreetSuffixes
      exampleSuburbNames exampleHundredNames "lot 3 Smith ST, STREAKY BAY wa 5680"
      (Some "5680") "WA" ["lot"; "3"; "Smith"; "ST,"; "STREAKY"; "BAY"]
  /\ exampleFormatAddress "lot 3 Smith ST, STREAKY BAY wa 5680"
     = Normal "lot 3 SMITH STREET, STREAKY BAY SA 5680".
Proof.
  destruct (formatAddress_pops_postcode_then_state Fuzzy.didYouMean exampleStreetNames
              exampleStreetSuffixes exampleSuburbNames exampleHundredNames "931/001/19"
              "lot 3 Smith ST, STREAKY BAY wa 5680") as [[Hignored _]|(_ & _ & Hall)].
  { vm_compute in Hignored. discriminate Hignored. }
  destruct (Hall (Some "5680") "WA" ["lot"; "3"; "Smith"; "ST,"; "STREAKY"; "BAY"])
    as (Hresolve & Hformat & _).
  - apply (PostCodeAfterState ["lot"; "3"; "Smith"; "ST,"; "STREAKY"; "BAY"]
             "wa" "5680" "WA").
    + exists "5"%char, "6"%char, "8"%char, "0"%char. split; [reflexivity|].
      repeat constructor; simpl; lia.
    + split; [simpl; tauto|]. simpl.
      split; [right; left; vm_compute; lia|]. split; [right; left; vm_compute; lia|done].
  - split; [exact Hresolve|]. unfold exampleFormatAddress. rewrite Hformat.
    vm_compute. reflexivity.
Defined.

Lemma testSA_append (s : string) (afterWord : bool) :
  JS.testSA afterWord (s +:+ " SA") = true.
Proof.
  revert afterWord. induction s as [|c s IH]; intros afterWord.
  - destruct afterWord; reflexivity.
  - rewrite append_cons. cbn [JS.testSA]. rewrite IH. apply orb_true_r.
Qed.

Lemma ensureState_has_SA (address : string) :
  address <> "" -> JS.testSA false (Scraper.ensureState address) = true.
Proof.
  intros Hne. unfold Scraper.ensureState.
  apply String.eqb_neq in Hne. rewrite Hne. simpl.
  destruct (JS.testSA false address) eqn:Htest; simpl; [done|].
  apply testSA_append.
Qed.

Lemma not_blank_not_empty (s : string) : Scraper.isBlank s = false -> s <> "".
Proof. intros Hblank ->. discriminate. Qed.

Section FormatAddressProperties.

Variable didYouMean : string -> list string -> nat -> option string.
Variable StreetNames : list (string * list string).
Variable StreetSuffixes : list (string * string).
Variable SuburbNames : list (string * string).
Variable HundredNames : list (string * list string).

Lemma findSuburbName_no_match (n : nat) (tokens : list string) :
  (forall index, 1 <= index <= n ->
     didYouMean (JS.join " " (JS.sliceLast index tokens)) (keys SuburbNames) 1 = None) ->
  Scraper.findSuburbName didYouMean SuburbNames n tokens = (None, tokens).
Proof.
  induction n as [|n IH]; intros Hnone; simpl; [done|].
  rewrite (Hnone (S n)) by lia. apply IH. intros index Hindex. apply Hnone. lia.
Qed.

Lemma findStreetName_no_street (n : nat) (suburbName : option string)
  (tokens : list string) :
  (forall index, 1 <= index <= n ->
     didYouMean (Scraper.tryStreetName index tokens) (keys StreetNames) 1 = None) ->
  Scraper.findStreetName didYouMean StreetNames SuburbNames n suburbName tokens
  = Normal (None, suburbName, tokens).
Proof.
  induction n as [|n IH]; intros Hnone; simpl; [done|].
  rewrite (Hnone (S n)) by lia. apply IH. intros index Hindex. apply Hnone. lia.
Qed.

Lemma findStreetName_first_match (n index : nat) (streetNameMatch : string)
  (tokens : list string) :
  1 <= index <= n ->
  didYouMean (Scraper.tryStreetName index tokens) (keys StreetNames) 1
  = Some streetNameMatch ->
  (forall longer, index < longer <= n ->
     didYouMean (Scraper.tryStreetName longer tokens) (keys StreetNames) 1 = None) ->
  Scraper.findStreetName didYouMean StreetNames SuburbNames n None tokens
  = match lookupKey streetNameMatch StreetNames with
    | None => Throw
    | Some suburbNames =>
        Normal (Some streetNameMatch,
                match Scraper.onlySuburb SuburbNames suburbNames with
                | Some suburb => suburb
                | None => None
                end,
                JS.spliceLast index tokens)
    end.
Proof.
  intros Hindex Hmatch Hlonger. induction n as [|n IH]; [lia|].
  simpl. destruct (decide (index = S n)) as [->|Hne].
  - rewrite Hmatch. by destruct (lookupKey streetNameMatch StreetNames).
  - rewrite (Hlonger (S n)) by lia. apply IH; [lia|].
    intros longer Hl. apply Hlonger. lia.
Qed.

Lemma street_windows (tokens : list string) :
  noStreetMatch didYouMean StreetNames tokens
  \/ exists index streetNameMatch,
       longestStreetMatch didYouMean StreetNames tokens index streetNameMatch.
Proof.
  assert (forall n, n <= 5 ->
            (forall index, 5 - n < index <= 5 ->
               didYouMean (Scraper.tryStreetName index tokens) (keys StreetNames) 1 = None)
            \/ exists index streetNameMatch,
                 longestStreetMatch didYouMean StreetNames tokens index streetNameMatch)
    as Hscan.
  { induction n as [|n IH]; intros Hn; [left; intros index Hindex; lia|].
    destruct IH as [Hnone|Hfound]; [lia| |by right].
    destruct (didYouMean (Scraper.tryStreetName (5 - n) tokens) (keys StreetNames) 1)
      as [streetNameMatch|] eqn:Hmatch.
    - right. exists (5 - n), streetNameMatch. split; [lia|]. split; [done|].
      intros longer Hlonger. apply Hnone. lia.
    - left. intros index Hindex. destruct (decide (index = 5 - n)) as [->|Hne]; [done|].
      apply Hnone. lia. }
  destruct (Hscan 5) as [Hnone|Hfound]; [lia| |by right].
  left. intros index Hindex. apply Hnone. lia.
Qed.

Lemma ensureState_not_empty (address : string) :
  address <> "" -> Scraper.ensureState address <> "".
Proof.
  intros Hne. unfold Scraper.ensureState.
  destruct (negb (String.eqb address "") && negb (JS.testSA false address)); [|done].
  intros Happ. by apply append_empty in Happ.
Qed.

(** C2, amended: when the suburb is resolved (and is not blank) the result
    is the street address, ", " and the suburb, or the suburb alone when
    the street address is empty; the street address is the remaining tokens
    and the resolved street name joined by spaces, trimmed and without
    trailing commas.  The letter case of the remaining tokens is kept.
    " SA" is appended when the result lacks the standalone token "SA", so
    the result always contains it. *)
Theorem formatAddress_assembles_street_and_suburb
  (applicationNumber address : string) (resolution : Scraper.Resolution)
  (suburb : string) :
  Scraper.resolveAddress didYouMean StreetNames StreetSuffixes SuburbNames HundredNames
    address = Normal (Scraper.Reached resolution) ->
  Scraper.suburbName resolution = Some suburb ->
  Scraper.isBlank suburb = false ->
  let streetTokens :=
    Scraper.tokens resolution ++
    match Scraper.streetName resolution with
    | Some street => if Scraper.isBlank street then [] else [street]
    | None => []
    end in
  let streetAddress := Scraper.stripCommas (JS.join " " streetTokens) in
  let assembled :=
    if String.eqb streetAddress "" then suburb else streetAddress +:+ ", " +:+ suburb in
  let result := if JS.testSA false assembled then assembled else assembled +:+ " SA" in
  Scraper.formatAddress didYouMean StreetNames StreetSuffixes SuburbNames HundredNames
    applicationNumber address = Normal result
  /\ JS.testSA false result = true.
Proof.
  intros Hresolve Hsuburb Hblank streetTokens streetAddress assembled result.
  assert (Scraper.streetAddressOf (Scraper.tokens resolution) (Scraper.streetName resolution)
          = streetAddress) as Hstreet.
  { unfold Scraper.streetAddressOf, streetAddress, streetTokens.
    destruct (Scraper.streetName resolution) as [street|]; [|by rewrite app_nil_r].
    destruct (Scraper.isBlank street); [by rewrite app_nil_r|done]. }
  assert (assembled <> "") as Hne.
  { pose proof (not_blank_not_empty suburb Hblank) as Hsub. unfold assembled.
    destruct (String.eqb streetAddress ""); [done|].
    intros Happ. apply append_empty, append_empty in Happ. done. }
  assert (Scraper.assembleAddress resolution = result) as Hresult.
  { unfold Scraper.assembleAddress. rewrite Hsuburb, Hblank, Hstreet.
    fold streetAddress.
    assert (streetAddress +:+ (if String.eqb streetAddress "" then "" else ", ") +:+ suburb
            = assembled) as ->.
    { unfold assembled. destruct (String.eqb streetAddress "") eqn:Hempty; [|done].
      apply String.eqb_eq in Hempty. by rewrite Hempty. }
    unfold Scraper.ensureState, result. apply String.eqb_neq in Hne. rewrite Hne.
    by destruct (JS.testSA false assembled). }
  split.
  - unfold Scraper.formatAddress. rewrite Hresolve. simpl. by rewrite Hresult.
  - rewrite <- Hresult. unfold Scraper.assembleAddress.
    rewrite Hsuburb, Hblank, Hstreet. apply ensureState_has_SA.
    intros Happ. apply append_empty, append_empty in Happ.
    by apply (not_blank_not_empty suburb).
Qed.

(** C3, amended: a token is left after the post code, the hundred-name
    loop leaves the suburb undetermined and no window of one to four
    trailing tokens matches a suburb (a loop that only runs when no
    hundred name was found).  Then the result is decided by the street
    loop alone, over the tokens with the street suffix expanded.  Either
    no window of one to five trailing tokens matches a street, or there is
    a longest window that does.  When no window matches, the result is the
    empty string.  When the longest matching window matches a street that
    does not supply a suburb, the result is the empty string, whatever a
    shorter window would match.  When that street has exactly one
    associated suburb with an entry in the suburb table, the suburb is
    adopted, with the post code of the address in place of its own: the
    result is the reconstructed address, and it is not empty when the
    adopted suburb is not blank.  A match that is no street of the table
    makes the program throw. *)
Theorem formatAddress_unresolved_suburb_decided_by_street
  (applicationNumber address state : string) (postCode : option string)
  (tokens1 tokens2 tokens3 : list string) (hasHundredName : bool) :
  Scraper.popPostCode
    (JS.split (Scraper.removeThousandsComma (Scraper.cleanAddress address)))
  = Some (postCode, tokens1) ->
  Scraper.popState tokens1 = Some (state, tokens2) ->
  Scraper.findHundredName didYouMean SuburbNames HundredNames 4 tokens2
  = Normal (hasHundredName, None, tokens3) ->
  (hasHundredName = false ->
   forall index, 1 <= index <= 4 ->
     didYouMean (JS.join " " (JS.sliceLast index tokens3)) (keys SuburbNames) 1 = None) ->
  let tokens4 := Scraper.expandStreetSuffix StreetSuffixes tokens3 in
  let formatted :=
    Scraper.formatAddress didYouMean StreetNames StreetSuffixes SuburbNames HundredNames
      applicationNumber address in
  (noStreetMatch didYouMean StreetNames tokens4
   \/ exists index streetNameMatch,
        longestStreetMatch didYouMean StreetNames tokens4 index streetNameMatch)
  /\ (noStreetMatch didYouMean StreetNames tokens4 -> formatted = Normal "")
  /\ forall index streetNameMatch,
       longestStreetMatch didYouMean StreetNames tokens4 index streetNameMatch ->
       (noSuburbFromStreet StreetNames SuburbNames streetNameMatch ->
        formatted = Normal "")
       /\ (forall suburb canonical,
             Scraper.isIgnoredAddress (Scraper.cleanAddress address) = false ->
             lookupKey streetNameMatch StreetNames = Some [suburb] ->
             lookupKey suburb SuburbNames = Some canonical ->
             let adopted :=
               match postCode with
               | Some postCode => JS.replaceTrailingPostCode postCode canonical
               | None => canonical
               end in
             formatted
             = Normal (Scraper.assembleAddress
                         {| Scraper.tokens := JS.spliceLast index tokens4;
                            Scraper.streetName := Some streetNameMatch;
                            Scraper.suburbName := Some adopted;
                            Scraper.fallbackAddress :=
                              Scraper.fallbackAddressOf
                                (Scraper.removeThousandsComma (Scraper.cleanAddress address))
                                postCode state tokens2 |})
             /\ (Scraper.isBlank adopted = false -> formatted <> Normal ""))
       /\ (Scraper.isIgnoredAddress (Scraper.cleanAddress address) = false ->
           lookupKey streetNameMatch StreetNames = None -> formatted = Throw).
Proof.
  intros Hpost Hstate Hhundred Hsuburb tokens4 formatted.
  assert (Scraper.isIgnoredAddress (Scraper.cleanAddress address) = true ->
          formatted = Normal "") as Hignored.
  { intros Htrue. unfold formatted, Scraper.formatAddress, Scraper.resolveAddress.
    by rewrite Htrue. }
  assert (forall streetLoop,
            Scraper.isIgnoredAddress (Scraper.cleanAddress address) = false ->
            Scraper.findStreetName didYouMean StreetNames SuburbNames 5 None tokens4
            = streetLoop ->
            formatted
            = ('(streetName, suburbName, tokens) ← streetLoop;
               Normal (Scraper.assembleAddress
                         {| Scraper.tokens := tokens;
                            Scraper.streetName := streetName;
                            Scraper.suburbName := Scraper.overridePostCode postCode suburbName;
                            Scraper.fallbackAddress :=
                              Scraper.fallbackAddressOf
                                (Scraper.removeThousandsComma (Scraper.cleanAddress address))
                                postCode state tokens2 |}))) as Hformatted.
  { intros streetLoop Hkept Hloop.
    unfold formatted, Scraper.formatAddress, Scraper.resolveAddress.
    rewrite Hkept, Hpost, Hstate, Hhundred.
    cbn -[Scraper.findSuburbName Scraper.findStreetName Scraper.expandStreetSuffix].
    assert ((if hasHundredName then (None, tokens3)
             else Scraper.findSuburbName didYouMean SuburbNames 4 tokens3)
            = (None, tokens3)) as ->.
    { destruct hasHundredName; [done|]. by apply findSuburbName_no_match, Hsuburb. }
    fold tokens4. rewrite Hloop.
    by destruct streetLoop as [[[streetName suburbName] tokens]|]. }
  split; [apply street_windows|]. split.
  - intros Hnone.
    destruct (Scraper.isIgnoredAddress (Scraper.cleanAddress address)) eqn:Hkept; [auto|].
    rewrite (Hformatted _ eq_refl (findStreetName_no_street 5 None tokens4 Hnone)).
    cbn. unfold Scraper.assembleAddress. cbn. by destruct postCode.
  - intros index streetNameMatch (Hindex & Hmatch & Hlonger).
    pose proof (findStreetName_first_match 5 index streetNameMatch tokens4
                  Hindex Hmatch Hlonger) as Hloop.
    split; [|split].
    + intros (suburbNames & Hlookup & Hnone).
      destruct (Scraper.isIgnoredAddress (Scraper.cleanAddress address)) eqn:Hkept; [auto|].
      apply (Hformatted _ eq_refl) in Hloop. rewrite Hloop, Hlookup.
      unfold Scraper.onlySuburb. destruct suburbNames as [|suburb [|]];
        [| rewrite (Hnone suburb eq_refl) |];
        cbn; unfold Scraper.assembleAddress; cbn; by destruct postCode.
    + intros suburb canonical Hkept Hlookup Hcanonical adopted.
      apply (Hformatted _ Hkept) in Hloop.
      assert (formatted
              = Normal (Scraper.assembleAddress
                          {| Scraper.tokens := JS.spliceLast index tokens4;
                             Scraper.streetName := Some streetNameMatch;
                             Scraper.suburbName := Some adopted;
                             Scraper.fallbackAddress :=
                               Scraper.fallbackAddressOf
                                 (Scraper.removeThousandsComma
                                    (Scraper.cleanAddress address))
                                 postCode state tokens2 |})) as Hresult.
      { rewrite Hloop, Hlookup. unfold Scraper.onlySuburb. rewrite Hcanonical.
        cbn. unfold adopted. by destruct postCode. }
      split; [done|]. intros Hblank. rewrite Hresult. intros [= Hempty].
      revert Hempty. unfold Scraper.assembleAddress. cbn. rewrite Hblank.
      apply ensureState_not_empty. intros Happ.
      apply append_empty, append_empty in Happ.
      by apply (not_blank_not_empty adopted).
    + intros Hkept Hlookup. apply (Hformatted _ Hkept) in Hloop.
      by rewrite Hloop, Hlookup.
Qed.

End FormatAddressProperties.

(** C2, as the program computes it: the suburb is resolved, the remaining
    token "Lot" keeps its lower-case letters, and the result is not the
    upper-case string the claim describes. *)
Lemma formatAddress_keeps_letter_case :
  exampleResolveAddress "Lot 5 Smith ST STREAKY BAY"
  = Normal (Scraper.Reached
              {| Scraper.tokens := ["Lot"; "5"];
                 Scraper.streetName := Some "SMITH STREET";
                 Scraper.suburbName := Some "STREAKY BAY SA 5680";
                 Scraper.fallbackAddress := "Lot 5 Smith ST STREAKY BAY" |})
  /\ exampleFormatAddress "Lot 5 Smith ST STREAKY BAY"
     = Normal "Lot 5 SMITH STREET, STREAKY BAY SA 5680"
  /\ exampleFormatAddress "Lot 5 Smith ST STREAKY BAY"
     <> Normal (JS.toUpperCase "Lot 5 SMITH STREET, STREAKY BAY SA 5680").
Proof.
  split; [vm_compute; reflexivity|]. split; [vm_compute; reflexivity|].
  vm_compute. discriminate.
Qed.

Lemma formatAddress_assembles_street_and_suburb_witness :
  exampleFormatAddress "Lot 5 Smith ST STREAKY BAY"
  = Normal "Lot 5 SMITH STREET, STREAKY BAY SA 5680"
  /\ JS.testSA false "Lot 5 SMITH STREET, STREAKY BAY SA 5680" = true.
Proof.
  apply (formatAddress_assembles_street_and_suburb
           Fuzzy.didYouMean exampleStreetNames exampleStreetSuffixes
           exampleSuburbNames exampleHundredNames
           "931/001/19" "Lot 5 Smith ST STREAKY BAY"
           {| Scraper.tokens := ["Lot"; "5"];
              Scraper.streetName := Some "SMITH STREET";
              Scraper.suburbName := Some "STREAKY BAY SA 5680";
              Scraper.fallbackAddress := "Lot 5 Smith ST STREAKY BAY" |}
           "STREAKY BAY SA 5680").
  - vm_compute. reflexivity.
  - reflexivity.
  - vm_compute. reflexivity.
Defined.

(** C3, as the program computes it: no hundred name and no window of
    trailing tokens matches a suburb, yet the street "JEFFERSON COURT" has
    a single suburb, which is adopted: the result is not empty. *)
Lemma suburb_taken_from_street :
  Scraper.findHundredName Fuzzy.didYouMean exampleSuburbNames exampleHundredNames 4
    ["22"; "Jefferson"; "CT"]
  = Normal (false, None, ["22"; "Jefferson"; "CT"])
  /\ Forall (fun index =>
               Fuzzy.didYouMean (JS.join " " (JS.sliceLast index ["22"; "Jefferson"; "CT"]))
                 (keys exampleSuburbNames) 1 = None) [4; 3; 2; 1]
  /\ exampleFormatAddress "22 Jefferson CT 5263"
     = Normal "22 JEFFERSON COURT, WELLINGTON EAST SA 5263"
  /\ exampleFormatAddress "22 Jefferson CT 5263" <> Normal "".
Proof.
  split; [vm_compute; reflexivity|]. split.
  - repeat constructor; vm_compute; reflexivity.
  - split; [vm_compute; reflexivity|]. vm_compute. discriminate.
Qed.

Lemma formatAddress_unresolved_suburb_decided_by_street_witness :
  exampleFormatAddress "12 Princes HWY" = Normal "".
Proof.
  destruct (formatAddress_unresolved_suburb_decided_by_street
              Fuzzy.didYouMean exampleStreetNames exampleStreetSuffixes
              exampleSuburbNames exampleHundredNames
              "931/001/19" "12 Princes HWY" "SA" None
              ["12"; "Princes"; "HWY"] ["12"; "Princes"; "HWY"] ["12"; "Princes"; "HWY"]
              false) as (_ & _ & Hlongest).
  - vm_compute. reflexivity.
  - vm_compute. reflexivity.
  - vm_compute. reflexivity.
  - intros _ index Hindex.
    destruct index as [|[|[|[|[|index]]]]]; [lia| | | | |lia]; vm_compute; reflexivity.
  - destruct (Hlongest 2 "PRINCES HIGHWAY") as [Hrejected _].
    + split; [lia|]. split; [vm_compute; reflexivity|]. intros longer Hlonger.
      destruct longer as [|[|[|[|[|[|longer]]]]]]; [lia|lia|lia| | | |lia];
        vm_compute; reflexivity.
    + apply Hrejected. exists ["MENINGIE"; "SALT CREEK"].
      split; [reflexivity|]. intros suburb Hone. discriminate Hone.
Defined.

(** * Further properties *)

(** ** Geometry in exact arithmetic *)

Lemma exact_intersection_within (a b : Geometry.Rectangle Q) :
  (0 <= Geometry.width b)%Q -> (0 <= Geometry.height b)%Q ->
  (0 <= Geometry.width (Geometry.intersect a b) <= Geometry.width b
   /\ 0 <= Geometry.height (Geometry.intersect a b) <= Geometry.height b)%Q.
Proof.
  destruct a as [ax ay aw ah], b as [bx by' bw bh]. unfold Geometry.intersect. cbn.
  intros Hw Hh.
  pose proof (Q.le_max_r ax bx). pose proof (Q.le_max_r ay by').
  pose proof (Q.le_min_r (ax + aw) (bx + bw)). pose proof (Q.le_min_r (ay + ah) (by' + bh)).
  destruct (Qle_bool (Qmax ax bx) (Qmin (ax + aw) (bx + bw))) eqn:Hx; cbn;
    [|repeat split; lra].
  destruct (Qle_bool (Qmax ay by') (Qmin (ay + ah) (by' + bh))) eqn:Hy; cbn;
    [|repeat split; lra].
  apply Qle_bool_iff in Hx, Hy. repeat split; lra.
Qed.


Lemma Qle_bool_compat (a a' b b' : Q) :
  (a == a')%Q -> (b == b')%Q -> Qle_bool a b = Qle_bool a' b'.
Proof.
  intros Ha Hb. destruct (Qle_bool a b) eqn:H1, (Qle_bool a' b') eqn:H2; try done.
  - apply Qle_bool_iff in H1. rewrite Ha, Hb in H1. apply Qle_bool_iff in H1. congruence.
  - apply Qle_bool_iff in H2. rewrite <- Ha, <- Hb in H2. apply Qle_bool_iff in H2. congruence.
Qed.

(** [intersect] does not depend on the order of its arguments: the two
    results have equal coordinates and sizes. *)
Theorem intersect_symmetric (a b : Geometry.Rectangle Q) :
  (Geometry.x (Geometry.intersect a b) == Geometry.x (Geometry.intersect b a)
   /\ Geometry.y (Geometry.intersect a b) == Geometry.y (Geometry.intersect b a)
   /\ Geometry.width (Geometry.intersect a b) == Geometry.width (Geometry.intersect b a)
   /\ Geometry.height (Geometry.intersect a b) == Geometry.height (Geometry.intersect b a))%Q.
Proof.
  destruct a as [ax ay aw ah], b as [bx by' bw bh]. unfold Geometry.intersect. cbn.
  pose proof (Q.max_comm ax bx) as Hx1. pose proof (Q.max_comm ay by') as Hy1.
  pose proof (Q.min_comm (ax + aw) (bx + bw)) as Hx2.
  pose proof (Q.min_comm (ay + ah) (by' + bh)) as Hy2.
  rewrite (Qle_bool_compat _ _ _ _ Hx1 Hx2), (Qle_bool_compat _ _ _ _ Hy1 Hy2).
  destruct (_ && _); cbn; repeat split; try reflexivity; try done.
  - by rewrite Hx1, Hx2.
  - by rewrite Hy1, Hy2.
Qed.

(** In exact arithmetic the percentage of an element of positive width and
    height lies between 0 and 100, whatever the rectangle.  In binary64, as
    the program computes it, rounding can take it above 100: the element
    at x = 0.1 of width 0.2 and of positive area, in a page of 10 by 10,
    has the percentage 100.00000000000001. *)
Theorem percentage_within_100_only_exactly :
  (forall (element : Geometry.Element Q) (rectangle : Geometry.Rectangle Q),
      (0 < Geometry.width (Geometry.bounds element))%Q ->
      (0 < Geometry.height (Geometry.bounds element))%Q ->
      (0 <= Geometry.getPercentageOfElementInRectangle element rectangle <= 100)%Q)
  /\ PrimFloat.ltb 0%float (Geometry.width (Geometry.bounds roundedElement)) = true
  /\ PrimFloat.ltb 0%float (Geometry.height (Geometry.bounds roundedElement)) = true
  /\ Geometry.getPercentageOfElementInRectangle roundedElement pageRectangle
     = 0x1.9000000000001p+6%float
  /\ PrimFloat.ltb 100%float
       (Geometry.getPercentageOfElementInRectangle roundedElement pageRectangle) = true.
Proof.
  split; [|repeat split; vm_compute; reflexivity].
  intros element rectangle Hw Hh.
  destruct (exact_intersection_within rectangle (Geometry.bounds element)) as [Hiw Hih];
    [lra|lra|].
  unfold Geometry.getPercentageOfElementInRectangle, Geometry.getArea. cbn.
  set (iw := Geometry.width (Geometry.intersect rectangle (Geometry.bounds element))) in *.
  set (ih := Geometry.height (Geometry.intersect rectangle (Geometry.bounds element))) in *.
  set (ew := Geometry.width (Geometry.bounds element)) in *.
  set (eh := Geometry.height (Geometry.bounds element)) in *.
  assert (0 < ew * eh)%Q as Hpos by nra.
  destruct (Qeq_bool (ew * eh) 0) eqn:Hzero.
  { apply Qeq_bool_iff in Hzero. lra. }
  split.
  - apply Qle_shift_div_l; [done|]. nra.
  - apply Qle_shift_div_r; [done|]. nra.
Qed.

(** In exact arithmetic an element that shares no inner point with the
    rectangle has percentage 0. *)
Theorem percentage_zero_when_apart (element : Geometry.Element Q)
  (rectangle : Geometry.Rectangle Q) :
  (0 <= Geometry.width (Geometry.bounds element))%Q ->
  (0 <= Geometry.height (Geometry.bounds element))%Q ->
  (0 <= Geometry.width rectangle)%Q ->
  (0 <= Geometry.height rectangle)%Q ->
  apart rectangle (Geometry.bounds element) ->
  (Geometry.getPercentageOfElementInRectangle element rectangle == 0)%Q.
Proof.
  intros Hew Heh Hrw Hrh Hapart.
  assert (Geometry.getArea (Geometry.intersect rectangle (Geometry.bounds element)) == 0)%Q
    as Harea.
  { destruct element as [t [ex ey ew eh]], rectangle as [rx ry rw rh].
    unfold apart in Hapart. unfold Geometry.getArea, Geometry.intersect. cbn in *.
    pose proof (Q.le_max_r rx ex). pose proof (Q.le_max_r ry ey).
    pose proof (Q.le_max_l rx ex). pose proof (Q.le_max_l ry ey).
    pose proof (Q.le_min_r (rx + rw) (ex + ew)). pose proof (Q.le_min_r (ry + rh) (ey + eh)).
    pose proof (Q.le_min_l (rx + rw) (ex + ew)). pose proof (Q.le_min_l (ry + rh) (ey + eh)).
    destruct (Qle_bool (Qmax rx ex) (Qmin (rx + rw) (ex + ew))) eqn:Hx; cbn; [|ring].
    destruct (Qle_bool (Qmax ry ey) (Qmin (ry + rh) (ey + eh))) eqn:Hy; cbn; [|ring].
    apply Qle_bool_iff in Hx, Hy.
    destruct Hapart as [Ha|[Ha|[Ha|Ha]]].
    - assert (Qmin (rx + rw) (ex + ew) - Qmax rx ex == 0)%Q as -> by lra. ring.
    - assert (Qmin (rx + rw) (ex + ew) - Qmax rx ex == 0)%Q as -> by lra. ring.
    - assert (Qmin (ry + rh) (ey + eh) - Qmax ry ey == 0)%Q as -> by lra. ring.
    - assert (Qmin (ry + rh) (ey + eh) - Qmax ry ey == 0)%Q as -> by lra. ring. }
  unfold Geometry.getPercentageOfElementInRectangle. cbn.
  destruct (Qeq_bool _ 0) eqn:Hzero; [reflexivity|].
  unfold Geometry.getArea in Harea. cbn in Harea. rewrite Harea.
  unfold Qdiv. ring.
Qed.

Lemma percentage_zero_when_apart_witness :
  (Geometry.getPercentageOfElementInRectangle
     (exactElement 10 1 4 2) (exactRectangle 0 0 10 10) == 0)%Q.
Proof.
  apply (percentage_zero_when_apart (exactElement 10 1 4 2) (exactRectangle 0 0 10 10)).
  - discriminate.
  - discriminate.
  - discriminate.
  - discriminate.
  - left. discriminate.
Defined.

(** ** The order [addressComparer] defines *)

(** Swapping the arguments of [addressComparer] negates its answer, and
    [undefined] stays [undefined]. *)
Theorem addressComparer_antisymmetric (a b : Multiplexed.AddressCandidate) :
  Multiplexed.addressComparer b a = option_map Z.opp (Multiplexed.addressComparer a b).
Proof.
  unfold Multiplexed.addressComparer. rewrite !Z.gtb_ltb.
  destruct (Z.compare_spec (Multiplexed.threshold a) (Multiplexed.threshold b)) as [Heq|Hlt|Hgt].
  - rewrite Heq, !Z.ltb_irrefl.
    destruct (Multiplexed.isEmpty (Multiplexed.houseNumber a)),
      (Multiplexed.isEmpty (Multiplexed.houseNumber b)),
      (Multiplexed.hasInvalidHundredName (Multiplexed.candidate a)),
      (Multiplexed.hasInvalidHundredName (Multiplexed.candidate b)),
      (Multiplexed.threshold b <=? 2)%Z; reflexivity.
  - assert ((Multiplexed.threshold a <? Multiplexed.threshold b)%Z = true) as ->
      by (apply Z.ltb_lt; lia).
    assert ((Multiplexed.threshold b <? Multiplexed.threshold a)%Z = false) as ->
      by (apply Z.ltb_ge; lia).
    destruct (Multiplexed.isEmpty (Multiplexed.houseNumber a)),
      (Multiplexed.isEmpty (Multiplexed.houseNumber b)),
      (Multiplexed.threshold a <=? 2)%Z, (Multiplexed.threshold b <=? 2)%Z; reflexivity.
  - assert ((Multiplexed.threshold a <? Multiplexed.threshold b)%Z = false) as ->
      by (apply Z.ltb_ge; lia).
    assert ((Multiplexed.threshold b <? Multiplexed.threshold a)%Z = true) as ->
      by (apply Z.ltb_lt; lia).
    destruct (Multiplexed.isEmpty (Multiplexed.houseNumber a)),
      (Multiplexed.isEmpty (Multiplexed.houseNumber b)),
      (Multiplexed.threshold a <=? 2)%Z, (Multiplexed.threshold b <=? 2)%Z; reflexivity.
Qed.

(** "Sorts before" is transitive: when [addressComparer] puts a before b
    and b before c, it puts a before c. *)
Theorem addressComparer_transitive (a b c : Multiplexed.AddressCandidate) :
  Multiplexed.addressComparer a b = Some (-1)%Z ->
  Multiplexed.addressComparer b c = Some (-1)%Z ->
  Multiplexed.addressComparer a c = Some (-1)%Z.
Proof.
  unfold Multiplexed.addressComparer. rewrite !Z.gtb_ltb.
  destruct (Multiplexed.isEmpty (Multiplexed.houseNumber a)),
    (Multiplexed.isEmpty (Multiplexed.houseNumber b)),
    (Multiplexed.isEmpty (Multiplexed.houseNumber c)),
    (Multiplexed.hasInvalidHundredName (Multiplexed.candidate a)),
    (Multiplexed.hasInvalidHundredName (Multiplexed.candidate b)),
    (Multiplexed.hasInvalidHundredName (Multiplexed.candidate c));
  cbn;
  repeat match goal with
         | |- context [(?p <=? ?q)%Z] => destruct (Z.leb_spec p q)
         | |- context [(?p <? ?q)%Z] => destruct (Z.ltb_spec p q)
         end; cbn; intros; first [done | lia].
Qed.

Lemma addressComparer_transitive_witness :
  Multiplexed.addressComparer numberedTwoErrors unrecognised = Some (-1)%Z.
Proof.
  apply (addressComparer_transitive numberedTwoErrors unnumberedExact unrecognised).
  - reflexivity.
  - reflexivity.
Defined.

(** A candidate whose street name was recognised (threshold at most 2) is
    put before every candidate whose street name was not (threshold above
    2), with or without a house number. *)
Theorem addressComparer_recognised_first (a b : Multiplexed.AddressCandidate) :
  (Multiplexed.threshold a <= 2)%Z ->
  (2 < Multiplexed.threshold b)%Z ->
  Multiplexed.addressComparer a b = Some (-1)%Z.
Proof.
  intros Ha Hb. unfold Multiplexed.addressComparer. rewrite Z.gtb_ltb.
  assert ((Multiplexed.threshold b <=? 2)%Z = false) as -> by (apply Z.leb_gt; lia).
  assert ((Multiplexed.threshold b <? Multiplexed.threshold a)%Z = false) as ->
    by (apply Z.ltb_ge; lia).
  assert ((Multiplexed.threshold a <? Multiplexed.threshold b)%Z = true) as ->
    by (apply Z.ltb_lt; lia).
  by rewrite andb_false_r.
Qed.

Lemma addressComparer_recognised_first_witness :
  Multiplexed.addressComparer unnumberedExact unrecognised = Some (-1)%Z.
Proof.
  apply (addressComparer_recognised_first unnumberedExact unrecognised).
  - simpl. lia.
  - reflexivity.
Defined.

(** ** The element sort in exact arithmetic *)

Lemma Qle_bool_false (a b : Q) : Qle_bool a b = false -> (b < a)%Q.
Proof.
  intros Hfalse. apply Qnot_le_lt. intros Hle. apply Qle_bool_iff in Hle. congruence.
Qed.

Ltac exact_order :=
  unfold Scraper.elementComparer; cbn; unfold Qlt_bool;
  repeat match goal with
         | |- context [Qle_bool ?p ?q] =>
             let H := fresh "H" in
             destruct (Qle_bool p q) eqn:H;
             [apply Qle_bool_iff in H | apply Qle_bool_false in H]
         end; cbn.

(** On exact numbers [elementComparer] is a consistent sort order:
    swapping the arguments negates the answer, the answer is 0 exactly for
    two elements at the same position, and "sorts before" is transitive. *)
Theorem elementComparer_consistent :
  (forall a b : Geometry.Element Q,
      Scraper.elementComparer b a = (- Scraper.elementComparer a b)%Z)
  /\ (forall a b : Geometry.Element Q,
        Scraper.elementComparer a b = 0%Z <->
        (Geometry.x (Geometry.bounds a) == Geometry.x (Geometry.bounds b)
         /\ Geometry.y (Geometry.bounds a) == Geometry.y (Geometry.bounds b))%Q)
  /\ (forall a b c : Geometry.Element Q,
        Scraper.elementComparer a b = (-1)%Z ->
        Scraper.elementComparer b c = (-1)%Z ->
        Scraper.elementComparer a c = (-1)%Z).
Proof.
  split; [|split].
  - intros [ta [ax ay aw ah]] [tb [bx by' bw bh]]. exact_order; first [done | lra].
  - intros [ta [ax ay aw ah]] [tb [bx by' bw bh]]. exact_order;
      (split; [intros; first [done | split; lra] | intros [? ?]; first [done | lra]]).
  - intros [ta [ax ay aw ah]] [tb [bx by' bw bh]] [tc [cx cy cw ch]].
    exact_order; intros; first [done | lra].
Qed.

(** ** The page loop and the save loop *)

Lemma fold_push_extends (results : list (option DevelopmentApplication))
  (acc : list DevelopmentApplication) :
  exists added, fold_left Scraper.pushApplication results acc = acc ++ added
                /\ sublist added (omap id results).
Proof.
  revert acc. induction results as [|r results IH]; intros acc; simpl.
  - exists []. by rewrite app_nil_r.
  - destruct r as [a|]; simpl; [|apply IH].
    destruct (Scraper.someWithNumber acc (applicationNumber a)).
    + destruct (IH acc) as (added & -> & Hsub). exists added. split; [done|].
      by apply sublist_cons.
    + destruct (IH (JS.push acc a)) as (added & -> & Hsub). exists (a :: added).
      unfold JS.push. rewrite <- app_assoc. split; [done|]. by apply sublist_skip.
Qed.

Lemma omap_id_length {A : Type} (l : list (option A)) :
  length (omap id l) <= length l.
Proof. unfold omap. induction l as [|[a|] l IH]; simpl; lia. Qed.

(** [parsePdf] returns the records in page order (a sub-sequence of what
    the pages yield), never more than one hundred of them and never more
    than there are pages. *)
Theorem parsePdf_in_page_order_at_most_100 {Page : Type}
  (parseApplicationElements : Page -> string -> option DevelopmentApplication)
  (url : string) (pages : list Page) :
  sublist (Scraper.parsePdf parseApplicationElements url pages)
          (omap id (pageResults parseApplicationElements url pages))
  /\ length (Scraper.parsePdf parseApplicationElements url pages) <= 100
  /\ length (Scraper.parsePdf parseApplicationElements url pages) <= length pages.
Proof.
  unfold Scraper.parsePdf, pageResults. rewrite parsePages_fold.
  destruct (fold_push_extends
              (map (fun page => parseApplicationElements page url) (Scraper.pagesRead pages)) [])
    as (added & -> & Hsub).
  simpl. split; [done|].
  apply sublist_length in Hsub.
  pose proof (omap_id_length
                (map (fun page => parseApplicationElements page url) (Scraper.pagesRead pages)))
    as Hlen.
  rewrite length_map in Hlen. unfold Scraper.pagesRead in Hlen, Hsub.
  rewrite length_firstn in Hlen. lia.
Qed.

Lemma save_replace_other (developmentApplications : list DevelopmentApplication)
  (database : Table) (key : string) :
  (forall d, In d developmentApplications -> applicationNumber d <> key) ->
  Scraper.saveApplications database developmentApplications !! key = database !! key.
Proof.
  unfold Scraper.saveApplications. revert database.
  induction developmentApplications as [|a rest IH]; intros database Hfresh; simpl; [done|].
  rewrite IH by (intros d Hin; apply Hfresh; by right).
  apply replace_lookup_other. intros ->. by apply (Hfresh a); [left|].
Qed.

Lemma save_replace_stored (developmentApplications : list DevelopmentApplication)
  (database : Table) (d : DevelopmentApplication) :
  List.NoDup (map applicationNumber developmentApplications) ->
  In d developmentApplications ->
  Scraper.saveApplications database developmentApplications !! applicationNumber d = Some d.
Proof.
  revert database.
  induction developmentApplications as [|a rest IH]; intros database Hnd Hin; [done|].
  simpl in Hnd. inversion Hnd as [|? ? Hnotin Hnd']; subst.
  destruct Hin as [->|Hin].
  - change (Scraper.saveApplications database (d :: rest))
      with (Scraper.saveApplications (Scraper.insertRow database d) rest).
    rewrite save_replace_other; [apply replace_lookup_same|].
    intros d' Hin' Heq. apply Hnotin. rewrite <- Heq. by apply in_map.
  - change (Scraper.saveApplications database (a :: rest))
      with (Scraper.saveApplications (Scraper.insertRow database a) rest).
    by apply IH.
Qed.

(** After [main] has saved the records [parsePdf] returned for a document,
    the table holds each of them exactly as parsed, under its application
    number, and every row with another key is as it was. *)
Theorem parsed_records_saved {Page : Type}
  (parseApplicationElements : Page -> string -> option DevelopmentApplication)
  (url : string) (pages : list Page) (database : Table) :
  (forall d, In d (Scraper.parsePdf parseApplicationElements url pages) ->
     Scraper.saveApplications database (Scraper.parsePdf parseApplicationElements url pages)
     !! applicationNumber d = Some d)
  /\ (forall key,
        (forall d, In d (Scraper.parsePdf parseApplicationElements url pages) ->
           applicationNumber d <> key) ->
        Scraper.saveApplications database (Scraper.parsePdf parseApplicationElements url pages)
        !! key = database !! key).
Proof.
  split.
  - intros d Hin. apply save_replace_stored; [|done].
    unfold Scraper.parsePdf. rewrite parsePages_fold. apply fold_push_NoDup. constructor.
  - intros key Hfresh. by apply save_replace_other.
Qed.

Lemma ignore_save_keeps (developmentApplications : list DevelopmentApplication)
  (database : Table) (key : string) (old : DevelopmentApplication) :
  database !! key = Some old ->
  Multiplexed.saveApplications database developmentApplications !! key = Some old.
Proof.
  unfold Multiplexed.saveApplications. revert database.
  induction developmentApplications as [|a rest IH]; intros database Hold; simpl; [done|].
  apply IH. unfold Multiplexed.insertRow.
  destruct (database !! applicationNumber a) eqn:Hrow; [done|].
  rewrite lookup_insert_ne; [done|]. intros <-. congruence.
Qed.

(** The earlier version of the save loop ([insert or ignore]) never
    changes a row that is already in the table, and it stores each record
    whose application number is not in the table yet. *)
Theorem earlier_save_first_writer_wins
  (developmentApplications : list DevelopmentApplication) (database : Table) :
  (forall key old,
      database !! key = Some old ->
      Multiplexed.saveApplications database developmentApplications !! key = Some old)
  /\ (List.NoDup (map applicationNumber developmentApplications) ->
      forall d,
        In d developmentApplications ->
        database !! applicationNumber d = None ->
        Multiplexed.saveApplications database developmentApplications
        !! applicationNumber d = Some d).
Proof.
  split; [intros key old; apply ignore_save_keeps|].
  revert database.
  induction developmentApplications as [|a rest IH]; intros database Hnd d Hin Hnone; [done|].
  simpl in Hnd. inversion Hnd as [|? ? Hnotin Hnd']; subst.
  change (Multiplexed.saveApplications database (a :: rest))
    with (Multiplexed.saveApplications (Multiplexed.insertRow database a) rest).
  destruct Hin as [->|Hin].
  - apply ignore_save_keeps. by apply ignore_adds_missing.
  - apply IH; [done|done|]. unfold Multiplexed.insertRow.
    destruct (database !! applicationNumber a); [done|].
    rewrite lookup_insert_ne; [done|]. intros Heq. apply Hnotin. rewrite Heq. by apply in_map.
Qed.

(** ** What [formatAddress] can return *)

Lemma pop_None {A : Type} (l : list A) : JS.pop l = None -> l = [].
Proof.
  destruct l as [|a l] using rev_ind; [done|]. by rewrite pop_snoc.
Qed.

Lemma assembleAddress_empty_or_SA (resolution : Scraper.Resolution) :
  Scraper.assembleAddress resolution = ""
  \/ JS.testSA false (Scraper.assembleAddress resolution) = true.
Proof.
  unfold Scraper.assembleAddress.
  destruct (Scraper.suburbName resolution) as [suburb|]; [|by left].
  match goal with |- context [Scraper.ensureState ?a] => set (assembled := a) end.
  destruct (String.eqb_spec assembled "") as [->|Hne]; [by left|].
  right. by apply ensureState_has_SA.
Qed.

Section FormatAddressResults.

Variable didYouMean : string -> list string -> nat -> option string.
Variable StreetNames : list (string * list string).
Variable StreetSuffixes : list (string * string).
Variable SuburbNames : list (string * string).
Variable HundredNames : list (string * list string).

Lemma resolveAddress_returned (address returned : string) :
  Scraper.resolveAddress didYouMean StreetNames StreetSuffixes SuburbNames HundredNames
    address = Normal (Scraper.Returned returned) ->
  returned = "" \/ JS.isFourDigits returned = true.
Proof.
  unfold Scraper.resolveAddress.
  destruct (Scraper.isIgnoredAddress _); [intros [= <-]; by left|].
  set (cleaned := Scraper.removeThousandsComma (Scraper.cleanAddress address)).
  destruct (split_snoc cleaned) as (init & token & Hsplit).
  pose proof (join_split cleaned) as Hjoin.
  rewrite Hsplit in *. unfold Scraper.popPostCode. rewrite pop_snoc.
  destruct (JS.isFourDigits token) eqn:Hfour.
  - unfold Scraper.popState. destruct (JS.pop init) as [[token' init']|] eqn:Hpop.
    + destruct (Scraper.includes _ _);
        (destruct (Scraper.findHundredName _ _ _ _ _) as [[[hasHundred suburb] tokens]|];
         [|done]); cbn -[Scraper.findSuburbName Scraper.findStreetName];
        (destruct (if hasHundred then _ else _) as [suburb' tokens']);
        (destruct (Scraper.findStreetName _ _ _ _ _ _) as [[[street suburb''] tokens'']|];
         done).
    + apply pop_None in Hpop. subst init. intros [= <-]. right.
      cbn in Hjoin. by rewrite <- Hjoin.
  - unfold Scraper.popState, JS.push. rewrite pop_snoc.
    destruct (Scraper.includes _ _);
      (destruct (Scraper.findHundredName _ _ _ _ _) as [[[hasHundred suburb] tokens]|];
       [|done]); cbn -[Scraper.findSuburbName Scraper.findStreetName];
      (destruct (if hasHundred then _ else _) as [suburb' tokens']);
      (destruct (Scraper.findStreetName _ _ _ _ _ _) as [[[street suburb''] tokens'']|];
       done).
Qed.

(** Whatever [formatAddress] returns is the empty string, a bare
    four-digit post code (the address was nothing else), or an address
    that contains the standalone token "SA". *)
Theorem formatAddress_result_kinds (applicationNumber address result : string) :
  Scraper.formatAddress didYouMean StreetNames StreetSuffixes SuburbNames HundredNames
    applicationNumber address = Normal result ->
  result = "" \/ JS.isFourDigits result = true \/ JS.testSA false result = true.
Proof.
  unfold Scraper.formatAddress.
  destruct (Scraper.resolveAddress _ _ _ _ _ address) as [[returned|resolution]|] eqn:Hres;
    cbn; [| |done].
  - intros [= <-]. apply resolveAddress_returned in Hres. tauto.
  - intros [= <-]. destruct (assembleAddress_empty_or_SA resolution); tauto.
Qed.

Lemma lookupKey_of_key {V : Type} (key : string) (object : list (string * V)) :
  In key (keys object) -> exists value, lookupKey key object = Some value.
Proof.
  induction object as [|[k v] object IH]; simpl; [done|].
  intros [->|Hin].
  - rewrite String.eqb_refl. eauto.
  - destruct (String.eqb k key); eauto.
Qed.

Lemma findHundredName_returns (index : nat) (tokens : list string) :
  answersFromList didYouMean ->
  exists result,
    Scraper.findHundredName didYouMean SuburbNames HundredNames index tokens = Normal result.
Proof.
  intros Hsound. induction index as [|index IH]; simpl; [eauto|].
  destruct (Scraper.startsLikeHundred _); [|done].
  destruct (didYouMean _ _ _) as [m|] eqn:Hmatch; [|done].
  apply Hsound, lookupKey_of_key in Hmatch as [suburbs ->].
  destruct (Scraper.onlySuburb _ _); eauto.
Qed.

Lemma findStreetName_returns (index : nat) (suburb : option string) (tokens : list string) :
  answersFromList didYouMean ->
  exists result,
    Scraper.findStreetName didYouMean StreetNames SuburbNames index suburb tokens
    = Normal result.
Proof.
  intros Hsound. induction index as [|index IH]; simpl; [eauto|].
  destruct (didYouMean _ _ _) as [m|] eqn:Hmatch; [|done].
  apply Hsound, lookupKey_of_key in Hmatch as [suburbs ->]. eauto.
Qed.

(** With a matcher that answers from the list it is given, [formatAddress]
    never throws: every address gets a result. *)
Theorem formatAddress_never_throws (applicationNumber address : string) :
  answersFromList didYouMean ->
  exists result,
    Scraper.formatAddress didYouMean StreetNames StreetSuffixes SuburbNames HundredNames
      applicationNumber address = Normal result.
Proof.
  intros Hsound. unfold Scraper.formatAddress, Scraper.resolveAddress.
  destruct (Scraper.isIgnoredAddress _); [cbn; eauto|].
  destruct (Scraper.popPostCode _) as [[postCode tokens1]|]; [|cbn; eauto].
  destruct (Scraper.popState _) as [[state tokens2]|]; [|cbn; eauto].
  destruct (findHundredName_returns 4 tokens2 Hsound) as [[[hasHundred suburb] tokens3] ->].
  cbn -[Scraper.findSuburbName Scraper.findStreetName].
  destruct (if hasHundred then _ else _) as [suburb' tokens4].
  destruct (findStreetName_returns 5 suburb'
              (Scraper.expandStreetSuffix StreetSuffixes tokens4) Hsound)
    as [[[street suburb''] tokens5] ->].
  cbn. eauto.
Qed.

End FormatAddressResults.

Lemma firstWithScore_member (best : nat) (matchList : list string) (ds : list nat)
  (answer : string) :
  Fuzzy.firstWithScore best matchList ds = Some answer -> In answer matchList.
Proof.
  revert ds. induction matchList as [|item items IH]; intros [|d ds]; simpl; try done.
  destruct (d =? best); [intros [= ->]; by left|]. intros Hrest. right. by apply (IH ds).
Qed.

Lemma Fuzzy_answersFromList : answersFromList Fuzzy.didYouMean.
Proof.
  intros input matchList threshold answer. unfold Fuzzy.didYouMean.
  destruct (Fuzzy.scores input matchList) as [|d ds]; [done|].
  destruct (_ <=? threshold); [|done]. apply firstWithScore_member.
Qed.

Lemma formatAddress_never_throws_witness :
  exists result, exampleFormatAddress "Lot no 1, Standley Road, Sect 16, Hundred of Pygery"
                 = Normal result.
Proof.
  apply (formatAddress_never_throws Fuzzy.didYouMean exampleStreetNames
           exampleStreetSuffixes exampleSuburbNames exampleHundredNames "931/001/19"
           "Lot no 1, Standley Road, Sect 16, Hundred of Pygery").
  exact Fuzzy_answersFromList.
Defined.

Lemma formatAddress_result_kinds_witness :
  "2800 WOODS WELL ROAD, COLEBATCH SA 5266" = ""
  \/ JS.isFourDigits "2800 WOODS WELL ROAD, COLEBATCH SA 5266" = true
  \/ JS.testSA false "2800 WOODS WELL ROAD, COLEBATCH SA 5266" = true.
Proof.
  apply (formatAddress_result_kinds Fuzzy.didYouMean exampleStreetNames
           exampleStreetSuffixes exampleSuburbNames exampleHundredNames "931/001/19"
           "2,800 Woods Well RD COLEBATCH 5266").
  vm_compute. reflexivity.
Defined.

(** [ensureState] appends " SA" at most once: applying it again changes
    nothing. *)
Theorem ensureState_idempotent (address : string) :
  Scraper.ensureState (Scraper.ensureState address) = Scraper.ensureState address.
Proof.
  destruct (String.eqb_spec address "") as [->|Hne]; [reflexivity|].
  pose proof (ensureState_has_SA address Hne) as Hsa.
  unfold Scraper.ensureState at 1. rewrite Hsa. by rewrite andb_false_r.
Qed.

(** ** Addresses without content, and the post code of the address *)

Lemma allChars_rev_app (p : ascii -> bool) (s t : string) :
  allChars p (String.rev_app s t) = allChars p s && allChars p t.
Proof.
  revert t. induction s as [|c s IH]; intros t; simpl; [done|].
  rewrite IH. simpl. destruct (p c), (allChars p s); simpl; try done.
Qed.

Lemma allChars_rev (p : ascii -> bool) (s : string) :
  allChars p (String.rev s) = allChars p s.
Proof. unfold String.rev. rewrite allChars_rev_app. simpl. apply andb_true_r. Qed.

Lemma allChars_dropWhile (p q : ascii -> bool) (s : string) :
  allChars p s = true -> allChars p (JS.dropWhile q s) = true.
Proof.
  induction s as [|c s IH]; simpl; [done|]. intros Hall.
  destruct (q c); [|done]. apply IH. by apply andb_prop in Hall as [_ ?].
Qed.

Lemma allChars_dropWhileEnd (p q : ascii -> bool) (s : string) :
  allChars p s = true -> allChars p (JS.dropWhileEnd q s) = true.
Proof.
  intros Hall. unfold JS.dropWhileEnd. rewrite allChars_rev.
  apply allChars_dropWhile. by rewrite allChars_rev.
Qed.

Lemma allChars_collapseRuns (p : ascii -> bool) (inRun : bool) (s : string) :
  p " "%char = true -> allChars p s = true -> allChars p (JS.collapseRuns inRun s) = true.
Proof.
  intros Hspace. revert inRun. induction s as [|c s IH]; intros inRun; simpl; [done|].
  intros Hall. apply andb_prop in Hall as [Hc Hs].
  destruct (JS.isWhiteSpace c).
  - destruct inRun; [by apply IH|]. simpl. rewrite IH by done.
    by destruct (JS.headIs JS.isWhiteSpace s); rewrite ?Hspace, ?Hc.
  - simpl. by rewrite Hc, IH.
Qed.

Lemma removeAll_allChars (p : ascii -> bool) (s : string) :
  allChars p s = true -> JS.removeAll p s = "".
Proof.
  induction s as [|c s IH]; simpl; [done|]. intros Hall.
  apply andb_prop in Hall as [-> Hs]. by apply IH.
Qed.

(** An address made only of white space, commas, zeros and dashes (such as
    "0 0, 0" or "-") is rejected: [formatAddress] returns the empty string,
    whatever the gazetteer and the matcher. *)
Theorem formatAddress_rejects_filler
  (didYouMean : string -> list string -> nat -> option string)
  (StreetNames : list (string * list string)) (StreetSuffixes SuburbNames : list (string * string))
  (HundredNames : list (string * list string)) (applicationNumber address : string) :
  allChars Scraper.isFiller address = true ->
  Scraper.formatAddress didYouMean StreetNames StreetSuffixes SuburbNames HundredNames
    applicationNumber address = Normal "".
Proof.
  intros Hall.
  assert (allChars Scraper.isFiller (Scraper.cleanAddress address) = true) as Hclean.
  { unfold Scraper.cleanAddress, JS.trim, JS.collapseWhiteSpace.
    apply allChars_dropWhileEnd, allChars_dropWhile, allChars_collapseRuns; [done|].
    by apply allChars_dropWhileEnd, allChars_dropWhileEnd, allChars_dropWhile. }
  unfold Scraper.formatAddress, Scraper.resolveAddress, Scraper.isIgnoredAddress.
  by rewrite (removeAll_allChars _ _ Hclean).
Qed.

Lemma formatAddress_rejects_filler_witness :
  exampleFormatAddress " 0 0, 0 - " = Normal "".
Proof.
  apply (formatAddress_rejects_filler Fuzzy.didYouMean exampleStreetNames
           exampleStreetSuffixes exampleSuburbNames exampleHundredNames
           "931/001/19" " 0 0, 0 - ").
  reflexivity.
Defined.

Lemma append_assoc (s t u : string) : (s +:+ t) +:+ u = s +:+ (t +:+ u).
Proof.
  induction s as [|c s IH]; [reflexivity|]. rewrite !append_cons. by rewrite IH.
Qed.

Lemma append_empty_r (s : string) : s +:+ "" = s.
Proof. induction s as [|c s IH]; [reflexivity|]. rewrite append_cons. by rewrite IH. Qed.

Lemma rev_app_append (s t : string) :
  String.rev_app s t = String.rev s +:+ t.
Proof.
  unfold String.rev. revert t. induction s as [|c s IH]; intros t; simpl; [reflexivity|].
  rewrite (IH (String c t)), (IH (String c "")). rewrite append_assoc. reflexivity.
Qed.

Lemma rev_append (s t : string) :
  String.rev (s +:+ t) = String.rev t +:+ String.rev s.
Proof.
  induction s as [|c s IH].
  - change ("" +:+ t) with t. change (String.rev "") with "". by rewrite append_empty_r.
  - rewrite append_cons. unfold String.rev at 1 3. simpl.
    rewrite !rev_app_append. rewrite IH. by rewrite append_assoc.
Qed.

Lemma rev_rev (s : string) : String.rev (String.rev s) = s.
Proof.
  induction s as [|c s IH]; [done|].
  unfold String.rev at 2. simpl. rewrite rev_app_append, rev_append, IH. done.
Qed.

(** When the suburb string ends in white space and four digits, the post
    code popped from the address replaces those digits, after one space. *)
Theorem explicit_postcode_replaces_suburb_postcode
  (postCode body : string) (w d1 d2 d3 d4 : ascii) :
  JS.isWhiteSpace w = true ->
  JS.isDigit d1 = true -> JS.isDigit d2 = true ->
  JS.isDigit d3 = true -> JS.isDigit d4 = true ->
  Scraper.overridePostCode (Some postCode)
    (Some (body +:+ String w (String d1 (String d2 (String d3 (String d4 ""))))))
  = Some (JS.dropWhileEnd JS.isWhiteSpace body +:+ " " +:+ postCode).
Proof.
  intros Hw H1 H2 H3 H4. unfold Scraper.overridePostCode, JS.replaceTrailingPostCode.
  rewrite rev_append.
  change (String.rev (String w (String d1 (String d2 (String d3 (String d4 ""))))))
    with (String d4 (String d3 (String d2 (String d1 (String w ""))))).
  rewrite !append_cons. change ("" +:+ String.rev body) with (String.rev body).
  rewrite H1, H2, H3, H4. simpl. rewrite Hw. done.
Qed.

Lemma explicit_postcode_replaces_suburb_postcode_witness :
  Scraper.overridePostCode (Some "5263") (Some "WELLINGTON EAST SA 5259")
  = Some "WELLINGTON EAST SA 5263".
Proof.
  apply (explicit_postcode_replaces_suburb_postcode "5263" "WELLINGTON EAST SA"
           " " "5" "2" "5" "9"); reflexivity.
Defined.

(** A suburb string that does not end in a digit is not changed by the
    post code of the address. *)
Theorem postcode_override_needs_trailing_digits (postCode suburb : string) :
  endsIn JS.isDigit suburb = false ->
  Scraper.overridePostCode (Some postCode) (Some suburb) = Some suburb.
Proof.
  unfold endsIn, Scraper.overridePostCode, JS.replaceTrailingPostCode.
  destruct (String.rev suburb) as [|d [|c [|b [|a r]]]]; simpl; try done.
  intros ->. by rewrite !andb_false_r.
Qed.

Lemma postcode_override_needs_trailing_digits_witness :
  Scraper.overridePostCode (Some "5680") (Some "STREAKY BAY SA") = Some "STREAKY BAY SA".
Proof.
  apply (postcode_override_needs_trailing_digits "5680" "STREAKY BAY SA"). reflexivity.
Defined.

(** ** The windows of trailing tokens *)

Section Windows.

Variable didYouMean : string -> list string -> nat -> option string.
Variable StreetNames : list (string * list string).
Variable StreetSuffixes : list (string * string).
Variable SuburbNames : list (string * string).

(** The suburb loop uses the longest window of trailing tokens that
    matches a suburb: those tokens are removed and the suburb string of the
    match is adopted. *)
Theorem findSuburbName_longest_window (n index : nat) (tokens : list string)
  (suburbNameMatch : string) :
  1 <= index <= n ->
  didYouMean (JS.join " " (JS.sliceLast index tokens)) (keys SuburbNames) 1
  = Some suburbNameMatch ->
  (forall longer, index < longer <= n ->
     didYouMean (JS.join " " (JS.sliceLast longer tokens)) (keys SuburbNames) 1 = None) ->
  Scraper.findSuburbName didYouMean SuburbNames n tokens
  = (lookupKey suburbNameMatch SuburbNames, JS.spliceLast index tokens).
Proof.
  intros Hindex Hmatch Hlonger. induction n as [|n IH]; [lia|].
  simpl. destruct (decide (index = S n)) as [->|Hne].
  - by rewrite Hmatch.
  - rewrite (Hlonger (S n)) by lia. apply IH; [lia|].
    intros longer Hl. apply Hlonger. lia.
Qed.

(** The street loop uses the longest window of trailing tokens that
    matches a street, and a suburb found before it is kept. *)
Theorem findStreetName_longest_window (n index : nat) (tokens suburbNames : list string)
  (streetNameMatch suburb : string) :
  1 <= index <= n ->
  didYouMean (Scraper.tryStreetName index tokens) (keys StreetNames) 1
  = Some streetNameMatch ->
  lookupKey streetNameMatch StreetNames = Some suburbNames ->
  (forall longer, index < longer <= n ->
     didYouMean (Scraper.tryStreetName longer tokens) (keys StreetNames) 1 = None) ->
  Scraper.findStreetName didYouMean StreetNames SuburbNames n (Some suburb) tokens
  = Normal (Some streetNameMatch, Some suburb, JS.spliceLast index tokens).
Proof.
  intros Hindex Hmatch Hlookup Hlonger. induction n as [|n IH]; [lia|].
  simpl. destruct (decide (index = S n)) as [->|Hne].
  - by rewrite Hmatch, Hlookup.
  - rewrite (Hlonger (S n)) by lia. apply IH; [lia|].
    intros longer Hl. apply Hlonger. lia.
Qed.

Lemma upperChar_idempotent (c : ascii) : JS.upperChar (JS.upperChar c) = JS.upperChar c.
Proof. destruct c as [[] [] [] [] [] [] [] []]; reflexivity. Qed.

Lemma toUpperCase_idempotent (s : string) :
  JS.toUpperCase (JS.toUpperCase s) = JS.toUpperCase s.
Proof.
  unfold JS.toUpperCase. induction s as [|c s IH]; simpl; [done|].
  by rewrite upperChar_idempotent, IH.
Qed.

(** Suffix expansion touches the last token only.  A known abbreviation
    becomes its expansion; any other last token keeps its letters up to
    case, without trailing commas. *)
Theorem expandStreetSuffix_last_token_only (init : list string) (token : string) :
  exists expanded,
    Scraper.expandStreetSuffix StreetSuffixes (init ++ [token]) = init ++ [expanded]
    /\ match lookupKey (JS.toUpperCase (Scraper.stripCommas token)) StreetSuffixes with
       | Some streetSuffix => expanded = streetSuffix
       | None => JS.toUpperCase expanded = JS.toUpperCase (Scraper.stripCommas token)
       end.
Proof.
  unfold Scraper.expandStreetSuffix, JS.push. rewrite pop_snoc.
  destruct (lookupKey _ StreetSuffixes) as [streetSuffix|]; [by eauto|].
  destruct (find _ (values StreetSuffixes)) as [streetSuffix|] eqn:Hfind; [|by eauto].
  exists streetSuffix. split; [done|].
  apply find_some in Hfind as [_ Heq]. apply String.eqb_eq in Heq.
  by rewrite <- Heq, toUpperCase_idempotent.
Qed.

End Windows.

Lemma findSuburbName_longest_window_witness :
  Scraper.findSuburbName Fuzzy.didYouMean exampleSuburbNames 4
    ["Princes"; "HWY"; "SALT"; "CREEK"]
  = (Some "SALT CREEK SA 5264", ["Princes"; "HWY"]).
Proof.
  apply (findSuburbName_longest_window Fuzzy.didYouMean exampleSuburbNames 4 2
           ["Princes"; "HWY"; "SALT"; "CREEK"] "SALT CREEK").
  - lia.
  - vm_compute. reflexivity.
  - intros longer Hl.
    destruct longer as [|[|[|[|[|longer]]]]]; [lia|lia|lia| | |lia]; vm_compute; reflexivity.
Defined.

Lemma findStreetName_longest_window_witness :
  Scraper.findStreetName Fuzzy.didYouMean exampleStreetNames exampleSuburbNames 5
    (Some "COLEBATCH SA 5266") ["2800"; "Woods"; "Well"; "ROAD"]
  = Normal (Some "WOODS WELL ROAD", Some "COLEBATCH SA 5266", ["2800"]).
Proof.
  apply (findStreetName_longest_window Fuzzy.didYouMean exampleStreetNames
           exampleSuburbNames 5 3 ["2800"; "Woods"; "Well"; "ROAD"] ["COLEBATCH"]
           "WOODS WELL ROAD" "COLEBATCH SA 5266").
  - lia.
  - vm_compute. reflexivity.
  - reflexivity.
  - intros longer Hl.
    destruct longer as [|[|[|[|[|[|longer]]]]]]; [lia|lia|lia|lia| | |lia];
      vm_compute; reflexivity.
Defined.

(** ** The gazetteer files *)

Lemma setKey_same {V : Type} (key : string) (value : V) (object : list (string * V)) :
  lookupKey key (Scraper.setKey key value object) = Some value.
Proof.
  induction object as [|[k v] object IH]; simpl.
  - by rewrite String.eqb_refl.
  - destruct (String.eqb k key) eqn:Heq; simpl; by rewrite Heq.
Qed.

Lemma setKey_other {V : Type} (key other : string) (value : V)
  (object : list (string * V)) :
  other <> key ->
  lookupKey other (Scraper.setKey key value object) = lookupKey other object.
Proof.
  intros Hne. induction object as [|[k v] object IH]; simpl.
  - destruct (String.eqb_spec key other); [congruence|done].
  - destruct (String.eqb_spec k key) as [->|Hk]; simpl.
    + destruct (String.eqb_spec key other); [congruence|done].
    + by rewrite IH.
Qed.

Lemma splitOn_shape (sep : ascii) (s : string) :
  match Scraper.splitOn sep s with
  | [] => False
  | [_] => hasChar sep s = false
  | _ :: _ :: _ => hasChar sep s = true
  end.
Proof.
  induction s as [|c s IH]; simpl; [done|].
  destruct (Ascii.eqb c sep); simpl.
  - by destruct (Scraper.splitOn sep s).
  - by destruct (Scraper.splitOn sep s) as [|t [|t' ts]].
Qed.

Lemma hasChar_comma_upper (s : string) :
  hasChar ","%char (JS.toUpperCase s) = hasChar ","%char s.
Proof.
  unfold JS.toUpperCase. induction s as [|c s IH]; simpl; [done|]. rewrite IH. f_equal.
  destruct c as [[] [] [] [] [] [] [] []]; reflexivity.
Qed.

Lemma fieldsOf_throws (line : string) :
  Scraper.fieldsOf line = Throw <-> hasChar ","%char line = false.
Proof.
  unfold Scraper.fieldsOf. pose proof (splitOn_shape ","%char (JS.toUpperCase line)) as Hshape.
  rewrite hasChar_comma_upper in Hshape.
  destruct (Scraper.splitOn _ _) as [|t [|t' ts]]; [done| |].
  - by split.
  - rewrite Hshape. by split.
Qed.

Ltac throws_by_lines lines :=
  induction lines as [|? ? IH]; intros ?; simpl;
  [ split; [done|intros (? & [] & _)]
  | match goal with
    | |- context [Scraper.fieldsOf ?line] =>
        destruct (Scraper.fieldsOf line) as [[? ?]|] eqn:Hfields; cbn;
        [ rewrite IH; split;
          [ intros (l & Hin & Hno); exists l; split; [by right|done]
          | intros (l & [<-|Hin] & Hno);
            [apply fieldsOf_throws in Hno; congruence | exists l; by split] ]
        | split;
          [ intros _; exists line; split; [by left|by apply fieldsOf_throws]
          | done ] ]
    end ].

(** Reading a gazetteer file throws exactly when one of its lines has no
    comma; this holds for the three loops of [main]. *)
Theorem gazetteer_line_without_comma_throws (lines : list string) :
  (forall StreetNames,
      Scraper.readStreetNames lines StreetNames = Throw <->
      exists line, In line lines /\ hasChar ","%char line = false)
  /\ (forall object,
        Scraper.readPairs lines object = Throw <->
        exists line, In line lines /\ hasChar ","%char line = false)
  /\ (forall HundredNames,
        Scraper.readHundredNames lines HundredNames = Throw <->
        exists line, In line lines /\ hasChar ","%char line = false).
Proof.
  split; [|split]; throws_by_lines lines.
Qed.

Lemma readPairs_keeps (lines : list string) (object object' : list (string * string))
  (key : string) :
  Scraper.readPairs lines object = Normal object' ->
  (forall line k v, In line lines -> Scraper.fieldsOf line = Normal (k, v) -> k <> key) ->
  lookupKey key object' = lookupKey key object.
Proof.
  revert object. induction lines as [|line lines IH]; intros object; simpl.
  - by intros [= ->].
  - destruct (Scraper.fieldsOf line) as [[k v]|] eqn:Hfields; cbn; [|done].
    intros Hread Hother. rewrite (IH _ Hread) by (intros ????; eapply Hother; eauto).
    apply setKey_other. intros ->. by apply (Hother line k v); [left| |].
Qed.

Lemma readPairs_app (before after : list string) (object : list (string * string)) :
  Scraper.readPairs (before ++ after) object
  = (middle ← Scraper.readPairs before object; Scraper.readPairs after middle).
Proof.
  revert object. induction before as [|line before IH]; intros object; simpl; [done|].
  destruct (Scraper.fieldsOf line) as [[k v]|]; cbn; [apply IH|done].
Qed.

(** In the suffix and suburb files the last line of a key decides its
    value. *)
Theorem readPairs_last_line_wins (before after : list string) (line key value : string)
  (object object' : list (string * string)) :
  Scraper.readPairs (before ++ line :: after) object = Normal object' ->
  Scraper.fieldsOf line = Normal (key, value) ->
  (forall later k v, In later after -> Scraper.fieldsOf later = Normal (k, v) -> k <> key) ->
  lookupKey key object' = Some value.
Proof.
  rewrite readPairs_app.
  destruct (Scraper.readPairs before object) as [middle|]; cbn; [|done].
  intros Hread Hfields Hlater. rewrite Hfields in Hread. cbn in Hread.
  rewrite (readPairs_keeps _ _ _ key Hread Hlater). apply setKey_same.
Qed.

Lemma readPairs_last_line_wins_witness :
  lookupKey "ST" [("ST", "STREET"); ("RD", "ROAD")] = Some "STREET".
Proof.
  apply (readPairs_last_line_wins ["st,Saint"] ["Rd,Road"] "St , Street" "ST" "STREET" []
           [("ST", "STREET"); ("RD", "ROAD")]).
  - reflexivity.
  - reflexivity.
  - intros later k v [<-|[]] [= <- <-]. discriminate.
Defined.

Lemma addStreetName_same (StreetNames : list (string * list string))
  (streetName suburbName : string) :
  lookupKey streetName (Scraper.addStreetName StreetNames streetName suburbName)
  = Some (default [] (lookupKey streetName StreetNames) ++ [suburbName]).
Proof.
  unfold Scraper.addStreetName.
  destruct (lookupKey streetName StreetNames); simpl; apply setKey_same.
Qed.

Lemma addStreetName_other (StreetNames : list (string * list string))
  (streetName suburbName other : string) :
  other <> streetName ->
  lookupKey other (Scraper.addStreetName StreetNames streetName suburbName)
  = lookupKey other StreetNames.
Proof.
  intros Hne. unfold Scraper.addStreetName.
  destruct (lookupKey streetName StreetNames); by apply setKey_other.
Qed.

Lemma readStreetNames_lookup (lines : list string)
  (StreetNames StreetNames' : list (string * list string)) :
  Scraper.readStreetNames lines StreetNames = Normal StreetNames' ->
  exists entries,
    entriesOf lines = Normal entries
    /\ forall streetName,
         lookupKey streetName StreetNames'
         = match lookupKey streetName StreetNames, secondFieldsOf streetName entries with
           | None, [] => None
           | old, suburbNames => Some (default [] old ++ suburbNames)
           end.
Proof.
  revert StreetNames. induction lines as [|line lines IH]; intros StreetNames; simpl.
  - intros [= ->]. exists []. split; [done|]. intros streetName. unfold secondFieldsOf. simpl.
    destruct (lookupKey streetName StreetNames'); simpl; by rewrite ?app_nil_r.
  - destruct (Scraper.fieldsOf line) as [[street suburb]|]; cbn; [|done].
    intros Hread. destruct (IH _ Hread) as (entries & -> & Hlookup). cbn.
    exists ((street, suburb) :: entries). split; [done|].
    intros streetName. rewrite Hlookup. unfold secondFieldsOf. simpl.
    destruct (String.eqb_spec street streetName) as [->|Hne]; simpl.
    + rewrite addStreetName_same.
      destruct (lookupKey streetName StreetNames); simpl; by rewrite <- ?app_assoc.
    + by rewrite addStreetName_other.
Qed.

(** After the street-name file is read into an empty object, a street
    maps to the suburbs of all its lines, in line order, and a street with
    no line is absent. *)
Theorem readStreetNames_collects_suburbs (lines : list string)
  (StreetNames : list (string * list string)) :
  Scraper.readStreetNames lines [] = Normal StreetNames ->
  exists entries,
    entriesOf lines = Normal entries
    /\ forall streetName,
         lookupKey streetName StreetNames
         = match secondFieldsOf streetName entries with
           | [] => None
           | suburbNames => Some suburbNames
           end.
Proof.
  intros Hread. destruct (readStreetNames_lookup _ _ _ Hread) as (entries & Hentries & Hlookup).
  exists entries. split; [done|]. intros streetName. rewrite Hlookup. simpl.
  by destruct (secondFieldsOf streetName entries).
Qed.

Lemma readStreetNames_collects_suburbs_witness :
  exists entries,
    entriesOf exampleStreetLines = Normal entries
    /\ forall streetName,
         lookupKey streetName
           [("BAY ROAD", ["STREAKY BAY"; "SCEALE BAY"]); ("WELLS STREET", ["STREAKY BAY"])]
         = match secondFieldsOf streetName entries with
           | [] => None
           | suburbNames => Some suburbNames
           end.
Proof.
  apply (readStreetNames_collects_suburbs exampleStreetLines). reflexivity.
Defined.

(** ** The page parsers *)

Lemma describe_not_empty (description : string) : Scraper.describe description <> "".
Proof.
  unfold Scraper.describe. by destruct (String.eqb_spec description "").
Qed.

Lemma allChars_removeAll (p : ascii -> bool) (s : string) :
  allChars (fun c => negb (p c)) (JS.removeAll p s) = true.
Proof.
  induction s as [|c s IH]; simpl; [done|].
  destruct (p c) eqn:Hp; simpl; [done|]. by rewrite Hp.
Qed.

Section ParserProperties.

Context {num : Type} `{JSNumber num} `{JSNumberOrder num}.

Variable didYouMean : string -> list string -> nat -> option string.
Variable StreetNames : list (string * list string).
Variable StreetSuffixes : list (string * string).
Variable SuburbNames : list (string * string).
Variable HundredNames : list (string * list string).
Variable momentDate : string -> string.
Variable today : string.

Lemma formatted_address_kinds (applicationNumber raw formatted : string) :
  Scraper.formatAddress didYouMean StreetNames StreetSuffixes SuburbNames HundredNames
    applicationNumber raw = Normal formatted ->
  formatted <> "" ->
  JS.isFourDigits formatted = true \/ JS.testSA false formatted = true.
Proof.
  unfold Scraper.formatAddress.
  destruct (Scraper.resolveAddress _ _ _ _ _ raw) as [[returned|resolution]|] eqn:Hres;
    cbn; [| |done].
  - intros [= <-] Hne. apply resolveAddress_returned in Hres as [->|Hfour]; [done|by left].
  - intros [= <-] Hne. destruct (assembleAddress_empty_or_SA resolution); [done|by right].
Qed.

Lemma old_format_complete (elements : list (Geometry.Element num))
  (url : string) (d : DevelopmentApplication) :
  Scraper.parseOldFormatApplicationElements didYouMean StreetNames StreetSuffixes
    SuburbNames HundredNames momentDate today elements url = Normal (Some d) ->
  completeRecord url today d.
Proof.
  unfold Scraper.parseOldFormatApplicationElements.
  destruct (Scraper.findHeading "applicationnumber:" elements) as [heading|]; [|done].
  match goal with
  | |- context [String.eqb ?number ""] =>
      destruct (String.eqb_spec number "") as [|Hnumber]; [done|]
  end.
  destruct (Scraper.findHeading "propertyaddress:" elements) as [property|]; [|done].
  destruct (Scraper.formatAddress _ _ _ _ _ _ _) as [formatted|] eqn:Hformat; cbn; [|done].
  destruct (String.eqb_spec formatted "") as [|Haddress]; [done|].
  intros [= <-]. unfold completeRecord. cbn.
  repeat split; try done.
  - by apply (formatted_address_kinds _ _ _ Hformat).
  - apply describe_not_empty.
Qed.

Lemma new_format_complete (elements : list (Geometry.Element num))
  (url : string) (d : DevelopmentApplication) :
  Scraper.parseNewFormatApplicationElements didYouMean StreetNames StreetSuffixes
    SuburbNames HundredNames momentDate today elements url = Normal (Some d) ->
  completeRecord url today d.
Proof.
  unfold Scraper.parseNewFormatApplicationElements.
  destruct (find Scraper.isDevelopmentHeading elements) as [heading|]; [|done].
  match goal with
  | |- context [String.eqb ?number ""] =>
      destruct (String.eqb_spec number "") as [|Hnumber]; [done|]
  end.
  destruct (Scraper.findHeading "assessmentnumber" elements) as [assessment|]; [|done].
  destruct (Scraper.formatAddress _ _ _ _ _ _ _) as [formatted|] eqn:Hformat; cbn; [|done].
  destruct (String.eqb_spec formatted "") as [|Haddress]; [done|].
  intros [= <-]. unfold completeRecord. cbn.
  repeat split; try done.
  - by apply (formatted_address_kinds _ _ _ Hformat).
  - apply describe_not_empty.
Qed.

(** Every record the page parser returns, in either format, is complete:
    its application number, address and description are not empty, the
    address is a bare post code or contains the standalone token "SA", and
    it carries the document's URL, the comment address and the scrape date. *)
Theorem parsed_record_complete (elements : list (Geometry.Element num))
  (url : string) (d : DevelopmentApplication) :
  Scraper.parseApplicationElements didYouMean StreetNames StreetSuffixes SuburbNames
    HundredNames momentDate today elements url = Normal (Some d) ->
  completeRecord url today d.
Proof.
  unfold Scraper.parseApplicationElements.
  destruct (Scraper.findHeading "applicationfees:" elements).
  - apply old_format_complete.
  - apply new_format_complete.
Qed.

(** In the old format the application number has no white space, a page
    without a description heading gets the placeholder description, and a
    page without a date heading gets an empty received date. *)
Theorem old_format_record_fields (elements : list (Geometry.Element num))
  (url : string) (d : DevelopmentApplication) :
  Scraper.parseOldFormatApplicationElements didYouMean StreetNames StreetSuffixes
    SuburbNames HundredNames momentDate today elements url = Normal (Some d) ->
  allChars notWhiteSpace (applicationNumber d) = true
  /\ (Scraper.findHeading "developmentdescription:" elements = None ->
      description d = "No description provided")
  /\ (Scraper.findHeading "applicationdate:" elements = None -> receivedDate d = "").
Proof.
  unfold Scraper.parseOldFormatApplicationElements.
  destruct (Scraper.findHeading "applicationnumber:" elements) as [heading|]; [|done].
  match goal with
  | |- context [String.eqb ?number ""] =>
      destruct (String.eqb_spec number "") as [|Hnumber]; [done|]
  end.
  destruct (Scraper.findHeading "propertyaddress:" elements) as [property|]; [|done].
  destruct (Scraper.formatAddress _ _ _ _ _ _ _) as [formatted|]; cbn; [|done].
  destruct (String.eqb_spec formatted "") as [|Haddress]; [done|].
  intros [= <-]. cbn. split; [|split].
  - unfold Scraper.numberWithin.
    destruct (find _ elements); [apply allChars_removeAll|done].
  - by intros ->.
  - by intros ->.
Qed.

(** A page that lacks a required heading gives no record and no error: in
    the old format the application-number or the property-address heading,
    in the new format the development or the assessment-number heading. *)
Theorem page_without_heading_skipped (elements : list (Geometry.Element num))
  (url : string) :
  (Scraper.findHeading "applicationnumber:" elements = None
   \/ Scraper.findHeading "propertyaddress:" elements = None ->
   Scraper.parseOldFormatApplicationElements didYouMean StreetNames StreetSuffixes
     SuburbNames HundredNames momentDate today elements url = Normal None)
  /\ (find Scraper.isDevelopmentHeading elements = None
      \/ Scraper.findHeading "assessmentnumber" elements = None ->
      Scraper.parseNewFormatApplicationElements didYouMean StreetNames StreetSuffixes
        SuburbNames HundredNames momentDate today elements url = Normal None).
Proof.
  split.
  - unfold Scraper.parseOldFormatApplicationElements. intros [->| ->]; [done|].
    destruct (Scraper.findHeading "applicationnumber:" elements); [|done].
    by destruct (String.eqb _ "").
  - unfold Scraper.parseNewFormatApplicationElements. intros [->| ->]; [done|].
    destruct (find Scraper.isDevelopmentHeading elements); [|done].
    by destruct (String.eqb _ "").
Qed.

End ParserProperties.

Lemma parsed_record_complete_witness :
  completeRecord "https://www.streakybay.sa.gov.au/register.pdf" "2019-03-15" parsedRecord.
Proof.
  apply (parsed_record_complete Fuzzy.didYouMean exampleStreetNames exampleStreetSuffixes
           exampleSuburbNames exampleHundredNames noDate "2019-03-15" oldFormatPage).
  vm_compute. reflexivity.
Defined.

Lemma old_format_record_fields_witness :
  allChars notWhiteSpace (applicationNumber parsedRecord) = true
  /\ (Scraper.findHeading "developmentdescription:" oldFormatPage = None ->
      description parsedRecord = "No description provided")
  /\ (Scraper.findHeading "applicationdate:" oldFormatPage = None ->
      receivedDate parsedRecord = "").
Proof.
  apply (old_format_record_fields Fuzzy.didYouMean exampleStreetNames exampleStreetSuffixes
           exampleSuburbNames exampleHundredNames noDate "2019-03-15" oldFormatPage
           "https://www.streakybay.sa.gov.au/register.pdf").
  vm_compute. reflexivity.
Defined.

(** The old-format page of the examples, parsed in exact arithmetic and in
    binary64, gives the same record. *)
Example old_format_page_parsed :
  exampleParse oldFormatPage "https://www.streakybay.sa.gov.au/register.pdf"
  = Normal (Some parsedRecord)
  /\ exampleParse oldFormatPageBinary64 "https://www.streakybay.sa.gov.au/register.pdf"
     = Normal (Some parsedRecord)
  /\ exampleParse headlessPage "https://www.streakybay.sa.gov.au/register.pdf"
     = Normal None.
Proof. repeat split; vm_compute; reflexivity. Qed.
